(** * Profile controller and mail helper of the auth/RBAC API

    A shallow embedding of [controllers/profileController.js]
    (getProfile, updateProfile, changePassword, softDeleteProfile),
    of [utils/email.js] (sendEmail) and of the [User] schema of
    [models/User.js], followed by the properties of the session and
    token lifecycle that the specification states about them.

    Handlers are JavaScript [async] functions.  Every [await] in them is
    sequential, so a handler is a computation in a monad that threads
    the world (the two collections, the module variable [transporter],
    the process environment, the clock and the random source), collects
    the externally visible effects in chronological order, and ends in
    one of JavaScript's completions: normal, [return], or [throw]. *)

From Stdlib Require Import String Ascii List ZArith Arith.
Import ListNotations.
Open Scope string_scope.
Open Scope list_scope.

(** String concatenation of template literals; [++] stays with lists. *)
Infix "+++" := String.append (at level 60, right associativity) : string_scope.

(** ** Data model *)

Definition ObjectId := nat.

(** [profileUpdateSchema], models/User.js lines 3-8.  The two [Mixed]
    values are strings at every place the controller writes them. *)
Record ProfileUpdate := mkProfileUpdate {
  field : string;
  oldValue : string;
  newValue : string;
  updatedAt : Z
}.

Inductive Role := Admin | Editor | Viewer.

(** [userSchema], models/User.js lines 10-19.  The [createdAt] and
    [updatedAt] stamps that the [timestamps] option maintains are left
    out: the controller never reads or writes them. *)
Record UserDoc := mkUser {
  _id : ObjectId;
  name : string;
  email : string;
  password : string;
  role : Role;
  emailVerified : bool;
  lastLoginAt : option Z;
  isDeleted : bool;
  profileUpdates : list ProfileUpdate
}.

(** Modelled from the spec: the Token schema ([models/Token.js] is not
    among the sources).  One collection holds refresh sessions (session
    identifier, owner, expiry, revoked flag, default false) and one-time
    tokens (hash of the secret, owner, kind, expiry, used flag, default
    false); [type] is the discriminating string the controller writes
    and queries ("refresh", "verify"). *)
Record TokenDoc := mkToken {
  user : ObjectId;
  tokenId : option string;
  tokenHash : option string;
  type : string;
  expiresAt : Z;
  revoked : bool;
  used : bool
}.

(** The query and update documents the controller passes to
    [Token.updateMany]: [{ user, type? }] and [{ revoked }]. *)
Record TokenQuery := mkQuery {
  q_user : ObjectId;
  q_type : option string
}.

Record TokenUpdate := mkUpdate {
  set_revoked : option bool
}.

(** What [transporter.sendMail] receives (email.js lines 26-32). *)
Record MailOptions := mkMail {
  from : option string;
  to : string;
  subject : string;
  text : string;
  html : string
}.

Record Info := mkInfo { response : option string }.

Definition Err := string.

(** JavaScript completions of a function body. *)
Inductive Completion (A : Type) :=
| Normal (a : A)
| Returned
| Throw (e : Err).
Arguments Normal {A} a.
Arguments Returned {A}.
Arguments Throw {A} e.

(** A nodemailer transport: [sendMail] resolves with an info object or
    rejects. *)
Record Transporter := mkTransporter {
  sendMail : MailOptions -> option Info + Err
}.

(** The user document as [select("-password")] returns it. *)
Record PublicUser := mkPublic {
  pub_id : ObjectId;
  pub_name : string;
  pub_email : string;
  pub_role : Role;
  pub_emailVerified : bool;
  pub_lastLoginAt : option Z;
  pub_isDeleted : bool;
  pub_profileUpdates : list ProfileUpdate
}.

Inductive Json :=
| JMessage (message : string)
| JErrors (errors : list string)
| JUser (u : PublicUser).

Inductive JsVal :=
| VString (s : string)
| VUndefined
| VMail (m : MailOptions)
| VErr (e : Err).

(** The request as the handlers see it: the authenticated id set by the
    [jwtAuth] middleware, the JSON body (an absent property is
    [undefined]), and the errors the express-validator chains of
    routes/profile.js left on the request. *)
Record Request := mkRequest {
  req_user_id : ObjectId;
  body_name : option string;
  body_email : option string;
  body_currentPassword : option string;
  body_newPassword : option string;
  validation : list string
}.

(** Effects in the order they happen. *)
Inductive Event :=
| EvUserSave (doc : UserDoc)
| EvTokenCreate (doc : TokenDoc)
| EvTokenUpdateMany (q : TokenQuery) (u : TokenUpdate)
| EvConsoleLog (args : list JsVal)
| EvConsoleError (args : list JsVal)
| EvSendMail (m : MailOptions)
| EvRespond (status : Z) (body : Json)
| EvNext (err : Err).

(** The world a handler runs in.  [clock] and [entropy] are the
    successive results of [Date.now()]/[new Date()] and of the random
    source; [ticks] and [draws] count how many were consumed. *)
Record World := mkWorld {
  users : list UserDoc;
  tokens : list TokenDoc;
  transporter : option Transporter;
  env : string -> option string;
  clock : nat -> Z;
  ticks : nat;
  entropy : nat -> string;
  draws : nat
}.

Definition with_users (us : list UserDoc) (w : World) : World :=
  mkWorld us (tokens w) (transporter w) (env w) (clock w) (ticks w)
          (entropy w) (draws w).
Definition with_tokens (ts : list TokenDoc) (w : World) : World :=
  mkWorld (users w) ts (transporter w) (env w) (clock w) (ticks w)
          (entropy w) (draws w).
Definition with_transporter (t : option Transporter) (w : World) : World :=
  mkWorld (users w) (tokens w) t (env w) (clock w) (ticks w)
          (entropy w) (draws w).
Definition with_env (e : string -> option string) (w : World) : World :=
  mkWorld (users w) (tokens w) (transporter w) e (clock w) (ticks w)
          (entropy w) (draws w).
Definition with_entropy (r : nat -> string) (w : World) : World :=
  mkWorld (users w) (tokens w) (transporter w) (env w) (clock w) (ticks w)
          r (draws w).
Definition tick (w : World) : World :=
  mkWorld (users w) (tokens w) (transporter w) (env w) (clock w)
          (S (ticks w)) (entropy w) (draws w).
Definition draw (w : World) : World :=
  mkWorld (users w) (tokens w) (transporter w) (env w) (clock w) (ticks w)
          (entropy w) (S (draws w)).

(** ** The monad of handler bodies *)

Definition M (A : Type) := World -> Completion A * World * list Event.

Definition ret {A} (a : A) : M A := fun w => (Normal a, w, []).

Definition bind {A B} (m : M A) (f : A -> M B) : M B := fun w =>
  match m w with
  | (Normal a, w1, t1) =>
      match f a w1 with (r, w2, t2) => (r, w2, t1 ++ t2) end
  | (Returned, w1, t1) => (Returned, w1, t1)
  | (Throw e, w1, t1) => (Throw e, w1, t1)
  end.

Declare Scope js_scope.
Delimit Scope js_scope with js.
Notation "x <- m ;; k" := (bind m (fun x => k))
  (at level 61, m at next level, right associativity) : js_scope.
Notation "' p <- m ;; k" := (bind m (fun x => match x with p => k end))
  (at level 61, p pattern, m at next level, right associativity) : js_scope.
Notation "m ;; k" := (bind m (fun _ => k))
  (at level 61, right associativity) : js_scope.
Open Scope js_scope.

Definition throw {A} (e : Err) : M A := fun w => (Throw e, w, []).

(** [return m;]: evaluate [m], then leave the function. *)
Definition return_ {A B} (m : M A) : M B := fun w =>
  match m w with
  | (Normal _, w1, t1) => (Returned, w1, t1)
  | (Returned, w1, t1) => (Returned, w1, t1)
  | (Throw e, w1, t1) => (Throw e, w1, t1)
  end.

(** [try { body } catch (err) { handler err }]. *)
Definition try_catch {A} (body : M A) (handler : Err -> M A) : M A := fun w =>
  match body w with
  | (Throw e, w1, t1) =>
      match handler e w1 with (r, w2, t2) => (r, w2, t1 ++ t2) end
  | other => other
  end.

(** The boundary of an [async function] whose result is not used: a
    [return] completes the call normally. *)
Definition async_function (body : M unit) : M unit := fun w =>
  match body w with
  | (Returned, w1, t1) => (Normal tt, w1, t1)
  | other => other
  end.

Definition when (c : bool) (m : M unit) : M unit :=
  if c then m else ret tt.

Definition emit (e : Event) : M unit := fun w => (Normal tt, w, [e]).

Definition run {A} (m : M A) (w : World) : World := snd (fst (m w)).
Definition trace {A} (m : M A) (w : World) : list Event := snd (m w).
Definition completion {A} (m : M A) (w : World) : Completion A :=
  fst (fst (m w)).

(** ** Ambient JavaScript and Express *)

Module console.
Definition log (args : list JsVal) : M unit := emit (EvConsoleLog args).
Definition error (args : list JsVal) : M unit := emit (EvConsoleError args).
End console.

Module Date.
(** [Date.now()], and [new Date()] as its millisecond value. *)
Definition now : M Z := fun w => (Normal (clock w (ticks w)), tick w, []).
End Date.

Module process.
Definition env (key : string) : M (option string) :=
  fun w => (Normal (env w key), w, []).
End process.

Module res.
Definition status_json (code : Z) (body : Json) : M unit :=
  emit (EvRespond code body).
Definition json (body : Json) : M unit := emit (EvRespond 200 body).
End res.

Definition next (err : Err) : M unit := emit (EvNext err).

(** A value interpolated in a template literal. *)
Definition interpolate (v : option string) : string :=
  match v with Some s => s | None => "undefined" end.

Definition to_val (v : option string) : JsVal :=
  match v with Some s => VString s | None => VUndefined end.

(** Truthiness of a body property and the [!==] test on strings. *)
Definition truthy (v : option string) : bool :=
  match v with Some s => negb (s =? "") | None => false end.

Definition strict_neq (a b : string) : bool := negb (a =? b).

(** The string a truthy body property holds. *)
Definition string_of (v : option string) : string :=
  match v with Some s => s | None => "" end.

(** The guard [v && v !== current] of lines 32 and 37. *)
Definition changed (v : option string) (current : string) : bool :=
  truthy v && strict_neq (string_of v) current.

Definition nl : string := String (ascii_of_nat 10) EmptyString.
Definition dq : string := String (ascii_of_nat 34) EmptyString.

Definition validationResult (req : Request) : list string := validation req.
Definition isEmpty (errors : list string) : bool :=
  match errors with [] => true | _ => false end.

(** ** The collections (mongoose models)

    Each collection is the list of its documents, in insertion order.
    The database is taken to be reachable: the operations below always
    resolve.  The strings in a request body are the ones the sanitizers
    of routes/profile.js left there, on which the schema setters
    ([trim], [lowercase]) change nothing.  An [EvUserSave] stands for a
    save that resolved; a save that the schema refuses (a required path
    left empty, a value it cannot cast) rejects and is not represented,
    so what is said below of the state a handler stored is said of runs
    in which the save, or the success response after it, took place. *)

Definition matches (q : TokenQuery) (t : TokenDoc) : bool :=
  (q_user q =? user t)%nat &&
  match q_type q with
  | Some ty => (ty =? type t)%string
  | None => true
  end.

Definition apply_update (u : TokenUpdate) (t : TokenDoc) : TokenDoc :=
  match set_revoked u with
  | Some b => mkToken (user t) (tokenId t) (tokenHash t) (type t)
                      (expiresAt t) b (used t)
  | None => t
  end.

Definition update_many (q : TokenQuery) (u : TokenUpdate)
    (ts : list TokenDoc) : list TokenDoc :=
  map (fun t => if matches q t then apply_update u t else t) ts.

(** [doc.save()] writes the document back over the stored one with the
    same [_id]. *)
Definition replace_user (doc : UserDoc) (us : list UserDoc) : list UserDoc :=
  map (fun u => if (_id u =? _id doc)%nat then doc else u) us.

Module User.
Definition findById (id : ObjectId) : M (option UserDoc) := fun w =>
  (Normal (find (fun u => (_id u =? id)%nat) (users w)), w, []).

(** [User.findOne({ email })]. *)
Definition findOne (e : string) : M (option UserDoc) := fun w =>
  (Normal (find (fun u => (email u =? e)%string) (users w)), w, []).

Definition save (doc : UserDoc) : M unit := fun w =>
  (Normal tt, with_users (replace_user doc (users w)) w, [EvUserSave doc]).

Definition select_minus_password (u : UserDoc) : PublicUser :=
  mkPublic (_id u) (name u) (email u) (role u) (emailVerified u)
           (lastLoginAt u) (isDeleted u) (profileUpdates u).
End User.

Module Token.
(** [Token.create({ user, tokenHash, type, expiresAt })]; the flags
    take their defaults. *)
Definition create (owner : ObjectId) (hash : string) (ty : string)
    (expires : Z) : M unit := fun w =>
  let doc := mkToken owner None (Some hash) ty expires false false in
  (Normal tt, with_tokens (tokens w ++ [doc]) w, [EvTokenCreate doc]).

Definition updateMany (q : TokenQuery) (u : TokenUpdate) : M unit := fun w =>
  (Normal tt, with_tokens (update_many q u (tokens w)) w,
   [EvTokenUpdateMany q u]).
End Token.

(** Assignments to the fields of a loaded document. *)
Definition set_name (v : string) (u : UserDoc) : UserDoc :=
  mkUser (_id u) v (email u) (password u) (role u) (emailVerified u)
         (lastLoginAt u) (isDeleted u) (profileUpdates u).
Definition set_email (v : string) (u : UserDoc) : UserDoc :=
  mkUser (_id u) (name u) v (password u) (role u) (emailVerified u)
         (lastLoginAt u) (isDeleted u) (profileUpdates u).
Definition set_emailVerified (v : bool) (u : UserDoc) : UserDoc :=
  mkUser (_id u) (name u) (email u) (password u) (role u) v
         (lastLoginAt u) (isDeleted u) (profileUpdates u).
Definition set_password (v : string) (u : UserDoc) : UserDoc :=
  mkUser (_id u) (name u) (email u) v (role u) (emailVerified u)
         (lastLoginAt u) (isDeleted u) (profileUpdates u).
Definition set_isDeleted (v : bool) (u : UserDoc) : UserDoc :=
  mkUser (_id u) (name u) (email u) (password u) (role u) (emailVerified u)
         (lastLoginAt u) v (profileUpdates u).
Definition set_profileUpdates (v : list ProfileUpdate) (u : UserDoc)
    : UserDoc :=
  mkUser (_id u) (name u) (email u) (password u) (role u) (emailVerified u)
         (lastLoginAt u) (isDeleted u) v.

(** ** Libraries the controller imports *)

(** bcrypt's comparison and hashing, [encodeURIComponent], and the
    one-way hash of utils/tokens.js, as functions of their arguments. *)
Class Externals := {
  bcrypt_compare : string -> string -> bool;
  bcrypt_hash : string -> Z -> string;
  hashToken : string -> string;
  encodeURIComponent : string -> string
}.

(** Modelled from the spec: [genRandomToken] of utils/tokens.js (not among
    the sources) generates a high-entropy random secret; here, the next
    value of the random source. *)
Definition genRandomToken : M string := fun w =>
  (Normal (entropy w (draws w)), draw w, []).

Module bcrypt.
Section WithExternals.
Context `{Externals}.

(** Both reject when an argument is [undefined]. *)
Definition compare (data : option string) (encrypted : string) : M bool :=
  match data with
  | Some d => ret (bcrypt_compare d encrypted)
  | None => throw "Error: data and hash arguments required"
  end.

Definition hash (data : option string) (rounds : Z) : M string :=
  match data with
  | Some d => ret (bcrypt_hash d rounds)
  | None => throw "Error: data and salt arguments required"
  end.
End WithExternals.
End bcrypt.

(** ** utils/email.js *)

(** [let transporter = null;] (line 5): the state of the module when it
    has been loaded. *)
Definition module_init (w : World) : World := with_transporter None w.

Definition read_transporter : M (option Transporter) := fun w =>
  (Normal (transporter w), w, []).

(** [await transporter.sendMail(mailOptions)]. *)
Definition transporter_sendMail (tr : option Transporter) (m : MailOptions)
    : M (option Info) :=
  match tr with
  | None => throw "TypeError: Cannot read properties of null"
  | Some t =>
      emit (EvSendMail m) ;;
      match sendMail t m with
      | inl info => ret info
      | inr err => throw err
      end
  end.

(** [info.response]. *)
Definition info_response (info : option Info) : M (option string) :=
  match info with
  | Some i => ret (response i)
  | None => throw "TypeError: Cannot read properties of undefined"
  end.

Definition is_null {A} (o : option A) : bool :=
  match o with Some _ => false | None => true end.

(** email.js lines 11-44. *)
Definition sendEmail (to subject html text : string) : M unit :=
  async_function (
    tr <- read_transporter ;;
    when (is_null tr) (
      console.error [VString "Error: Transporter is not initialized."] ;;
      return_ (ret tt)) ;;
    try_catch (
      console.log [VString "Email settings:"] ;;
      console.log [VString "To:"; VString to] ;;
      console.log [VString "Subject:"; VString subject] ;;
      console.log [VString "Text:"; VString text] ;;
      console.log [VString "HTML:"; VString html] ;;
      from <- process.env "EMAIL_FROM" ;;
      let mailOptions := mkMail from to subject text html in
      console.log [VString "Mail options:"] ;;
      console.log [VMail mailOptions] ;;
      info <- transporter_sendMail tr mailOptions ;;
      r <- info_response info ;;
      console.log [VString "Email sent successfully:"; to_val r])
    (fun err => console.error [VString "Error sending email:"; VErr err])).

(** ** controllers/profileController.js *)

Section Controller.
Context `{Externals}.

Definition SALT_ROUNDS : Z := 12.

(** Lines 11-17. *)
Definition getProfile (req : Request) : M unit :=
  async_function (
    try_catch (
      user <- User.findById (req_user_id req) ;;
      match user with
      | None => return_ (res.status_json 404 (JMessage "User not found"))
      | Some user => res.json (JUser (User.select_minus_password user))
      end)
    (fun err => next err)).

(** Lines 20-69.  [updates] and the loaded document [user] are the
    function's local variables; each block that assigns to them yields
    their new values. *)
Definition updateProfile (req : Request) : M unit :=
  async_function (
    try_catch (
      let errors := validationResult req in
      when (negb (isEmpty errors)) (
        return_ (res.status_json 400 (JErrors errors))) ;;
      let name_ := body_name req in
      let email_ := body_email req in
      found <- User.findById (req_user_id req) ;;
      match found with
      | None => return_ (res.status_json 404 (JMessage "User not found"))
      | Some user =>
        now <- Date.now ;;
        let updates : list ProfileUpdate := [] in
        '(updates, user) <-
          (if changed name_ (name user)
           then
             let name_ := string_of name_ in
             ret (updates ++ [mkProfileUpdate "name" (name user) name_ now],
                  set_name name_ user)
           else ret (updates, user)) ;;
        '(updates, user) <-
          (if changed email_ (email user)
           then
             let email_ := string_of email_ in
             exists_ <- User.findOne email_ ;;
             when (negb (is_null exists_)) (
               return_ (res.status_json 400
                          (JMessage "Email already in use"))) ;;
             let updates :=
               updates ++ [mkProfileUpdate "email" (email user) email_ now] in
             let user := set_email email_ user in
             let user := set_emailVerified false user in
             rawToken <- genRandomToken ;;
             let tokenHash := hashToken rawToken in
             t <- Date.now ;;
             let expires := (t + 1000 * 60 * 60 * 24)%Z in
             Token.create (_id user) tokenHash "verify" expires ;;
             base <- process.env "BASE_URL" ;;
             let verifyUrl :=
               interpolate base +++ "/api/auth/verify-email?token=" +++
               rawToken +++ "&email=" +++ encodeURIComponent email_ in
             sendEmail email_ "Verify your new email"
               ("<p>Please verify your email by clicking <a href=" +++ dq +++
                verifyUrl +++ dq +++ ">here</a></p>")
               ("Please verify your new email: " +++ verifyUrl) ;;
             ret (updates, user)
           else ret (updates, user)) ;;
        let user :=
          match updates with
          | [] => user
          | _ => set_profileUpdates (profileUpdates user ++ updates) user
          end in
        User.save user ;;
        res.json (JMessage "Profile updated")
      end)
    (fun err => next err)).

(** Lines 72-111. *)
Definition changePassword (req : Request) : M unit :=
  async_function (
    try_catch (
      let errors := validationResult req in
      when (negb (isEmpty errors)) (
        return_ (res.status_json 400 (JErrors errors))) ;;
      let currentPassword := body_currentPassword req in
      let newPassword := body_newPassword req in
      found <- User.findById (req_user_id req) ;;
      match found with
      | None => return_ (res.status_json 404 (JMessage "User not found"))
      | Some user =>
        when (isDeleted user) (
          return_ (res.status_json 403 (JMessage "Account deactivated"))) ;;
        match_ <- bcrypt.compare currentPassword (password user) ;;
        when (negb match_) (
          return_ (res.status_json 400
                     (JMessage "Current password is incorrect"))) ;;
        hashed <- bcrypt.hash newPassword SALT_ROUNDS ;;
        let user := set_password hashed user in
        stamp <- Date.now ;;
        let user :=
          set_profileUpdates
            (profileUpdates user ++
             [mkProfileUpdate "password" "****" "****" stamp]) user in
        User.save user ;;
        Token.updateMany (mkQuery (_id user) (Some "refresh"))
                         (mkUpdate (Some true)) ;;
        sendEmail (email user) "Your password was changed"
          ("<p>Hi " +++ name user +++
           ",</p><p>Your account password was changed. If this was not you, please contact support immediately.</p>")
          ("Hi " +++ name user +++ "," +++ nl +++ nl +++
           "Your account password was changed. If this was not you, please contact support immediately.") ;;
        res.json (JMessage "Password updated")
      end)
    (fun err => next err)).

(** Lines 114-135. *)
Definition softDeleteProfile (req : Request) : M unit :=
  async_function (
    try_catch (
      found <- User.findById (req_user_id req) ;;
      match found with
      | None => return_ (res.status_json 404 (JMessage "User not found"))
      | Some user =>
        when (isDeleted user) (
          return_ (res.status_json 400
                     (JMessage "Account already deactivated"))) ;;
        let user := set_isDeleted true user in
        User.save user ;;
        Token.updateMany (mkQuery (_id user) None) (mkUpdate (Some true)) ;;
        sendEmail (email user) "Account deactivated"
          ("<p>Hi " +++ name user +++
           ",</p><p>Your account was deactivated.</p>")
          ("Hi " +++ name user +++ "," +++ nl +++ nl +++
           "Your account was deactivated. To restore, contact admin or use the restore endpoint if available.") ;;
        res.json (JMessage "Account deactivated")
      end)
    (fun err => next err)).

End Controller.

(** ** Reading an execution *)

(** The replies a handler can give, and the effects of the notification
    channel. *)
Definition is_reply (e : Event) : bool :=
  match e with
  | EvRespond _ _ | EvNext _ => true
  | _ => false
  end.

Definition is_notification (e : Event) : bool :=
  match e with
  | EvConsoleLog _ | EvConsoleError _ | EvSendMail _ => true
  | _ => false
  end.

Definition is_delivery (e : Event) : bool :=
  match e with
  | EvSendMail _ => true
  | _ => false
  end.

Definition is_token_create (e : Event) : bool :=
  match e with
  | EvTokenCreate _ => true
  | _ => false
  end.

(** The writes to the collections. *)
Definition is_write (e : Event) : bool :=
  match e with
  | EvUserSave _ | EvTokenCreate _ | EvTokenUpdateMany _ _ => true
  | _ => false
  end.

Definition is_next (e : Event) : bool :=
  match e with
  | EvNext _ => true
  | _ => false
  end.

(** The call completed normally, its last effect is [reply], and it
    never passed an error on to [next]. *)
Definition succeeds_with (reply : Event) (c : Completion unit)
    (tr : list Event) : Prop :=
  c = Normal tt /\
  (exists pre, tr = pre ++ [reply]) /\
  forall err, ~ In (EvNext err) tr.

(** Everything a call does besides what [sendEmail] does. *)
Definition outside_notification (e : Event) : bool :=
  negb (is_notification e).

Definition password_updated : Event :=
  EvRespond 200 (JMessage "Password updated").
Definition account_deactivated : Event :=
  EvRespond 200 (JMessage "Account deactivated").
Definition profile_updated : Event :=
  EvRespond 200 (JMessage "Profile updated").
Definition email_in_use : Event :=
  EvRespond 400 (JMessage "Email already in use").

Definition lookup (id : ObjectId) (us : list UserDoc) : option UserDoc :=
  find (fun u => (_id u =? id)%nat) us.

Definition lookup_email (e : string) (us : list UserDoc) : option UserDoc :=
  find (fun u => (email u =? e)%string) us.

(** The durable state, and the state reached from it once a sequence of
    effects has been applied: the writes of a trace, replayed. *)
Definition Store : Type := list UserDoc * list TokenDoc.

Definition store (w : World) : Store := (users w, tokens w).

Definition apply_event (s : Store) (e : Event) : Store :=
  match e with
  | EvUserSave doc => (replace_user doc (fst s), snd s)
  | EvTokenCreate doc => (fst s, snd s ++ [doc])
  | EvTokenUpdateMany q u => (fst s, update_many q u (snd s))
  | _ => s
  end.

Definition replay (evs : list Event) (s : Store) : Store :=
  fold_left apply_event evs s.

(** A call that started on the store [s0] and ended on the store [s1]
    left the trace [tr]: the reply [reply] ends the trace, the bulk
    update of the tokens matching [q] is among the effects before it,
    those earlier effects already lead from [s0] to [s1], and [s1] holds
    the token records of [s0], in place, with every one that matches [q]
    revoked. *)
Definition revoked_before_reply (tr : list Event) (s0 s1 : Store)
    (q : TokenQuery) (reply : Event) : Prop :=
  exists pre,
    tr = pre ++ [reply] /\
    In (EvTokenUpdateMany q (mkUpdate (Some true))) pre /\
    replay pre s0 = s1 /\
    snd s1 = update_many q (mkUpdate (Some true)) (snd s0) /\
    forall t, In t (snd s1) -> matches q t = true -> revoked t = true.






(** ** The values the handlers compute *)

Section Computed.
Context `{Externals}.

(** What a successful password change leaves: the document saved, the
    world after the save, and the world after the bulk revocation. *)
Definition password_changed_doc (u : UserDoc) (np : string) (stamp : Z)
    : UserDoc :=
  set_profileUpdates
    (profileUpdates u ++ [mkProfileUpdate "password" "****" "****" stamp])
    (set_password (bcrypt_hash np SALT_ROUNDS) u).

Definition refresh_sessions_of (id : ObjectId) : TokenQuery :=
  mkQuery id (Some "refresh").
Definition tokens_of (id : ObjectId) : TokenQuery := mkQuery id None.
Definition revoke : TokenUpdate := mkUpdate (Some true).

Definition saved_then_revoked (doc : UserDoc) (q : TokenQuery) (w : World)
    : World :=
  with_tokens (update_many q revoke (tokens w))
              (with_users (replace_user doc (users w)) w).

(** The document [softDeleteProfile] saves. *)
Definition deactivated_doc (u : UserDoc) : UserDoc := set_isDeleted true u.

(** The local state of [updateProfile] after the name block (lines
    32-35), the document as line 62-64 completes it, and the token and
    mail of lines 48-59. *)
Definition renamed (req : Request) (now : Z) (u : UserDoc)
    : list ProfileUpdate * UserDoc :=
  if changed (body_name req) (name u)
  then ([mkProfileUpdate "name" (name u) (string_of (body_name req)) now],
        set_name (string_of (body_name req)) u)
  else ([], u).

Definition audited (updates : list ProfileUpdate) (u : UserDoc) : UserDoc :=
  match updates with
  | [] => u
  | _ => set_profileUpdates (profileUpdates u ++ updates) u
  end.

Definition verify_token (owner : ObjectId) (rawToken : string) (issued : Z)
    : TokenDoc :=
  mkToken owner None (Some (hashToken rawToken)) "verify"
          (issued + 1000 * 60 * 60 * 24)%Z false false.

(** The reading of [Date.now()] on line 50: the second reading of the
    clock in a call of [updateProfile], after [new Date()] on line 29. *)
Definition issuance_time (w : World) : Z := clock w (S (ticks w)).

Definition verifyUrl (base : option string) (rawToken email_ : string)
    : string :=
  interpolate base +++ "/api/auth/verify-email?token=" +++
  rawToken +++ "&email=" +++ encodeURIComponent email_.

Definition verify_html (url : string) : string :=
  "<p>Please verify your email by clicking <a href=" +++ dq +++
  url +++ dq +++ ">here</a></p>".

Definition verify_text (url : string) : string :=
  "Please verify your new email: " +++ url.

End Computed.

(** The calls this code serves, in any order: the four routes, a direct
    call of [sendEmail] by another module, and writes to the collections
    made elsewhere. *)
Inductive Op :=
| OpGetProfile (req : Request)
| OpUpdateProfile (req : Request)
| OpChangePassword (req : Request)
| OpSoftDeleteProfile (req : Request)
| OpSendEmail (to subject html text : string)
| OpElsewhere (us : list UserDoc) (ts : list TokenDoc).

Section Serving.
Context `{Externals}.

Definition exec (op : Op) : M unit :=
  match op with
  | OpGetProfile req => getProfile req
  | OpUpdateProfile req => updateProfile req
  | OpChangePassword req => changePassword req
  | OpSoftDeleteProfile req => softDeleteProfile req
  | OpSendEmail a b c d => sendEmail a b c d
  | OpElsewhere us ts =>
      fun w => (Normal tt, with_tokens ts (with_users us w), [])
  end.

Fixpoint serve (ops : list Op) (w : World) : World * list Event :=
  match ops with
  | [] => (w, [])
  | op :: rest =>
      let '(_, w1, t1) := exec op w in
      let '(w2, t2) := serve rest w1 in
      (w2, t1 ++ t2)
  end.

End Serving.

(** ** How the collections may change *)

(** A token record after a call: the record itself, or the record with
    its [revoked] flag set. *)
Definition token_kept (t t' : TokenDoc) : Prop :=
  t' = t \/ t' = apply_update (mkUpdate (Some true)) t.

(** The token collection [ts'] holds the records of [ts], in place and
    each kept in the sense above, followed by new records. *)
Definition tokens_evolve (ts ts' : list TokenDoc) : Prop :=
  exists kept added, ts' = kept ++ added /\ Forall2 token_kept ts kept.

(** The fields of an account that no profile route assigns, and the
    deactivation flag, which is only ever set. *)
Definition account_kept (u u' : UserDoc) : Prop :=
  _id u' = _id u /\ role u' = role u /\ lastLoginAt u' = lastLoginAt u /\
  (isDeleted u = true -> isDeleted u' = true).

(** No two stored accounts share an [_id] or an email, as the primary
    key and the unique index of models/User.js line 12 require. *)
Definition unique_accounts (us : list UserDoc) : Prop :=
  NoDup (map _id us) /\ NoDup (map email us).

(** The calls of [Op] that go through this code. *)
Definition through_this_code (op : Op) : bool :=
  match op with
  | OpElsewhere _ _ => false
  | _ => true
  end.

(** The account a call acts for. *)
Definition caller (op : Op) : option ObjectId :=
  match op with
  | OpGetProfile req | OpUpdateProfile req
  | OpChangePassword req | OpSoftDeleteProfile req => Some (req_user_id req)
  | _ => None
  end.

Definition contains (s part : string) : Prop :=
  exists before after, s = before +++ part +++ after.

(** The profile as [getProfile] answers it. *)
Definition profile_of (e : Event) : option PublicUser :=
  match e with
  | EvRespond 200 (JUser p) => Some p
  | _ => None
  end.

(** ** A concrete deployment, for evaluating the handlers *)

Module Sample.

#[export] Instance externals : Externals := {|
  bcrypt_compare d h := (h =? "$2b$12$" +++ d)%string;
  bcrypt_hash d _ := "$2b$12$" +++ d;
  hashToken s := "sha256:" +++ s;
  encodeURIComponent s := s
|}.

Definition alice : UserDoc :=
  mkUser 1 "Alice" "alice@example.com" "$2b$12$OldPass123!" Viewer true
         None false [].
Definition bob : UserDoc :=
  mkUser 2 "Bob" "bob@example.com" "$2b$12$BobPass123!" Editor true
         None false [mkProfileUpdate "name" "Rob" "Bob" 1600000000000].

Definition R1 : TokenDoc :=
  mkToken 1 (Some "r1") None "refresh" 1700600000000 false false.
Definition R2 : TokenDoc :=
  mkToken 1 (Some "r2") None "refresh" 1700600000001 false false.
Definition V1 : TokenDoc :=
  mkToken 1 None (Some "sha256:old") "verify" 1700080000000 false true.
Definition RB : TokenDoc :=
  mkToken 2 (Some "rb") None "refresh" 1700600000002 false false.

Definition sample_env (key : string) : option string :=
  if (key =? "BASE_URL")%string then Some "http://localhost:4000"
  else if (key =? "EMAIL_FROM")%string then Some "noreply@example.com"
  else None.

(** The process right after start. *)
Definition w0 : World :=
  module_init
    (mkWorld [alice; bob] [R1; R2; V1; RB] None sample_env
             (fun n => 1700000000000 + Z.of_nat n)%Z 0
             (fun n => if (n =? 0)%nat then "s3cr3t" else "0ther") 0).

(** The same process with an SMTP transport that refuses every mail. *)
Definition refusing : Transporter :=
  mkTransporter (fun _ => inr "Error: connect ECONNREFUSED").
Definition w_refusing : World := with_transporter (Some refusing) w0.

Definition change_password : Request :=
  mkRequest 1 None None (Some "OldPass123!") (Some "NewPass456!") [].
Definition wrong_password : Request :=
  mkRequest 1 None None (Some "WrongPass1!") (Some "NewPass456!") [].
Definition delete_account : Request :=
  mkRequest 1 None None None None [].
Definition change_email : Request :=
  mkRequest 1 None (Some "alice.new@example.com") None None [].
Definition take_bobs_email : Request :=
  mkRequest 1 (Some "Alicia") (Some "bob@example.com") None None [].
(** The name fails [isLength({ min: 2 })]. *)
Definition short_name_and_bobs_email : Request :=
  mkRequest 1 (Some "A") (Some "bob@example.com") None None
            ["name: Invalid value"].

(** The same process with an SMTP transport that accepts every mail. *)
Definition accepting : Transporter :=
  mkTransporter (fun _ => inl (Some (mkInfo (Some "250 OK")))).
Definition w_accepting : World := with_transporter (Some accepting) w0.

Definition rename : Request :=
  mkRequest 1 (Some "Alicia") None None None [].
Definition same_name_same_email : Request :=
  mkRequest 1 (Some "Alice") (Some "alice@example.com") None None [].
Definition rename_and_change_email : Request :=
  mkRequest 1 (Some "Alicia") (Some "alice.new@example.com") None None [].
Definition change_password_again : Request :=
  mkRequest 1 None None (Some "NewPass456!") (Some "ThirdPass789!") [].
Definition unknown_caller : Request :=
  mkRequest 7 None None None None [].

End Sample.

Arguments String.append : simpl never.
Arguments sendEmail : simpl never.
Arguments changed : simpl never.


(** * Properties *)

(** ** The collections *)

Lemma lookup_id id us u : lookup id us = Some u -> _id u = id.
Proof.
  unfold lookup. intros Hf. apply find_some in Hf.
  destruct Hf as [_ Heq]. now apply Nat.eqb_eq in Heq.
Qed.

Lemma lookup_replace_same doc us u :
  lookup (_id doc) us = Some u ->
  lookup (_id doc) (replace_user doc us) = Some doc.
Proof.
  unfold lookup, replace_user.
  induction us as [|x xs IH]; cbn; [discriminate|].
  destruct (_id x =? _id doc)%nat eqn:E; cbn.
  - now rewrite Nat.eqb_refl.
  - rewrite E. exact IH.
Qed.

Lemma lookup_replace_other doc id us :
  _id doc <> id ->
  lookup id (replace_user doc us) = lookup id us.
Proof.
  intros Hne. unfold lookup, replace_user.
  induction us as [|x xs IH]; cbn; [reflexivity|].
  destruct (_id x =? _id doc)%nat eqn:E; cbn.
  - apply Nat.eqb_eq in E.
    assert (Hd : (_id doc =? id)%nat = false) by now apply Nat.eqb_neq.
    assert (Hx : (_id x =? id)%nat = false)
      by (apply Nat.eqb_neq; congruence).
    now rewrite Hd, Hx.
  - destruct (_id x =? id)%nat; [reflexivity | exact IH].
Qed.

Lemma update_many_revokes q ts t :
  In t (update_many q (mkUpdate (Some true)) ts) ->
  matches q t = true -> revoked t = true.
Proof.
  unfold update_many. intros Hin Hm.
  apply in_map_iff in Hin. destruct Hin as [t0 [Ht0 _]].
  destruct (matches q t0) eqn:E.
  - now subst t.
  - subst t. congruence.
Qed.

Lemma matches_owner_kind id ty t :
  user t = id -> type t = ty -> matches (mkQuery id (Some ty)) t = true.
Proof.
  intros <- <-. unfold matches; cbn.
  now rewrite Nat.eqb_refl, String.eqb_refl.
Qed.

Lemma matches_owner id t :
  user t = id -> matches (mkQuery id None) t = true.
Proof. intros <-. unfold matches; cbn. now rewrite Nat.eqb_refl. Qed.

(** ** Replaying a trace *)

Lemma replay_app evs1 evs2 s :
  replay (evs1 ++ evs2) s = replay evs2 (replay evs1 s).
Proof. apply fold_left_app. Qed.

Lemma replay_notifications evs s :
  Forall (fun e => is_notification e = true) evs -> replay evs s = s.
Proof.
  intros Hall. revert s.
  induction Hall as [|e evs He _ IH]; intros s; [reflexivity|].
  cbn. destruct e; try discriminate; apply IH.
Qed.

(** ** sendEmail *)

Ltac js_unfold :=
  unfold async_function, try_catch, bind, when, return_, ret, throw, emit,
    res.status_json, res.json, next, User.findById, User.findOne, User.save,
    Token.create, Token.updateMany, Date.now, genRandomToken, process.env,
    bcrypt.compare, bcrypt.hash, validationResult, console.log,
    console.error, read_transporter, transporter_sendMail, info_response.

Lemma world_eta w :
  mkWorld (users w) (tokens w) (transporter w) (env w) (clock w) (ticks w)
          (entropy w) (draws w) = w.
Proof. now destruct w. Qed.

(** [sendEmail] always completes normally and leaves the world as it
    found it. *)
Lemma sendEmail_total to_ subject_ html_ text_ w :
  sendEmail to_ subject_ html_ text_ w =
  (Normal tt, w, trace (sendEmail to_ subject_ html_ text_) w).
Proof.
  unfold trace, sendEmail. js_unfold. cbn.
  destruct (transporter w) as [tr|]; cbn; [|reflexivity].
  destruct (sendMail tr _) as [[i|]|e]; cbn; reflexivity.
Qed.

Lemma sendEmail_uninitialized to_ subject_ html_ text_ w :
  transporter w = None ->
  trace (sendEmail to_ subject_ html_ text_) w =
  [EvConsoleError [VString "Error: Transporter is not initialized."]].
Proof.
  intros Hnull. unfold trace, sendEmail. js_unfold. cbn.
  now rewrite Hnull.
Qed.

Lemma sendEmail_notifies to_ subject_ html_ text_ w :
  Forall (fun e => is_notification e = true)
         (trace (sendEmail to_ subject_ html_ text_) w).
Proof.
  unfold trace, sendEmail. js_unfold. cbn.
  destruct (transporter w) as [tr|]; cbn.
  - destruct (sendMail tr _) as [[i|]|e]; cbn;
      repeat (constructor; [reflexivity|]); constructor.
  - repeat (constructor; [reflexivity|]); constructor.
Qed.

(** What [sendEmail] does is determined by the transport and the
    environment. *)
Lemma sendEmail_trace_frame to_ subject_ html_ text_ w w' :
  transporter w' = transporter w -> env w' = env w ->
  trace (sendEmail to_ subject_ html_ text_) w' =
  trace (sendEmail to_ subject_ html_ text_) w.
Proof.
  intros Ht He. unfold trace, sendEmail. js_unfold. cbn.
  rewrite Ht. destruct (transporter w) as [tr|]; cbn; [|reflexivity].
  rewrite He. destruct (sendMail tr _) as [[i|]|e]; cbn; reflexivity.
Qed.

(** ** Symbolic execution of the handlers *)

Ltac js_case :=
  match goal with
  | |- context [isEmpty ?l] => destruct l eqn:?
  | |- context [match find ?f ?l with _ => _ end] =>
      destruct (find f l) eqn:?
  | |- context [if isDeleted ?u then _ else _] =>
      destruct (isDeleted u) eqn:?
  | |- context [match body_currentPassword ?r with _ => _ end] =>
      destruct (body_currentPassword r) eqn:?
  | |- context [match body_newPassword ?r with _ => _ end] =>
      destruct (body_newPassword r) eqn:?
  | |- context [bcrypt_compare ?a ?b] => destruct (bcrypt_compare a b) eqn:?
  | |- context [sendEmail ?a ?b ?c ?d ?w] =>
      rewrite (sendEmail_total a b c d w)
  end; cbn.

Ltac error_exit :=
  left; eexists; split; [|split];
  [ rewrite ?world_eta; reflexivity | reflexivity | discriminate ].

Section Handlers.
Context `{Externals}.

(** Either [changePassword] replies with an error and the world is the
    one it started in, or every check passed and it ran to the end. *)
Lemma changePassword_cases req w :
  (exists e,
      changePassword req w = (Normal tt, w, [e]) /\
      is_reply e = true /\ e <> password_updated)
  \/
  (exists u cp np,
      validation req = [] /\
      lookup (req_user_id req) (users w) = Some u /\
      isDeleted u = false /\
      body_currentPassword req = Some cp /\
      bcrypt_compare cp (password u) = true /\
      body_newPassword req = Some np /\
      let doc := password_changed_doc u np (clock w (ticks w)) in
      let w' := saved_then_revoked doc (refresh_sessions_of (_id u)) (tick w) in
      exists html_ text_,
      changePassword req w =
      (Normal tt, w',
       [EvUserSave doc;
        EvTokenUpdateMany (refresh_sessions_of (_id u)) revoke] ++
       trace (sendEmail (email u) "Your password was changed" html_ text_) w'
       ++ [password_updated])).
Proof.
  unfold changePassword. js_unfold. cbn.
  repeat js_case; try error_exit.
  right. exists u, s, s0. unfold lookup.
  repeat (split; [first [reflexivity | assumption]|]).
  do 2 eexists. reflexivity.
Qed.

Lemma softDeleteProfile_cases req w :
  (exists e,
      softDeleteProfile req w = (Normal tt, w, [e]) /\
      is_reply e = true /\ e <> account_deactivated)
  \/
  (exists u,
      lookup (req_user_id req) (users w) = Some u /\
      isDeleted u = false /\
      let doc := deactivated_doc u in
      let w' := saved_then_revoked doc (tokens_of (_id u)) w in
      exists html_ text_,
      softDeleteProfile req w =
      (Normal tt, w',
       [EvUserSave doc; EvTokenUpdateMany (tokens_of (_id u)) revoke] ++
       trace (sendEmail (email u) "Account deactivated" html_ text_) w'
       ++ [account_deactivated])).
Proof.
  unfold softDeleteProfile. js_unfold. cbn.
  repeat js_case; try error_exit.
  right. exists u. unfold lookup.
  repeat (split; [first [reflexivity | assumption]|]).
  do 2 eexists. reflexivity.
Qed.

(** [updateProfile] replies with an error and leaves both collections
    alone, or saves without touching the email, or changes the email. *)
Lemma updateProfile_cases req w :
  (exists e w',
      updateProfile req w = (Normal tt, w', [e]) /\
      is_reply e = true /\ e <> profile_updated /\
      (w' = w \/ w' = tick w))
  \/
  (exists u,
      validation req = [] /\
      lookup (req_user_id req) (users w) = Some u /\
      changed (body_email req) (email u) = false /\
      let now := clock w (ticks w) in
      let doc := audited (fst (renamed req now u)) (snd (renamed req now u)) in
      updateProfile req w =
      (Normal tt, with_users (replace_user doc (users w)) (tick w),
       [EvUserSave doc; profile_updated]))
  \/
  (exists u,
      validation req = [] /\
      lookup (req_user_id req) (users w) = Some u /\
      changed (body_email req) (email u) = true /\
      lookup_email (string_of (body_email req)) (users w) = None /\
      let email_ := string_of (body_email req) in
      let now := clock w (ticks w) in
      let rawToken := entropy w (draws w) in
      let updates :=
        fst (renamed req now u) ++
        [mkProfileUpdate "email" (email u) email_ now] in
      let doc :=
        audited updates
          (set_emailVerified false
             (set_email email_ (snd (renamed req now u)))) in
      let tok := verify_token (_id u) rawToken (clock w (S (ticks w))) in
      let w1 := with_tokens (tokens w ++ [tok]) (tick (draw (tick w))) in
      let url := verifyUrl (env w "BASE_URL") rawToken email_ in
      updateProfile req w =
      (Normal tt, with_users (replace_user doc (users w)) w1,
       [EvTokenCreate tok] ++
       trace (sendEmail email_ "Verify your new email"
                (verify_html url) (verify_text url)) w1 ++
       [EvUserSave doc; profile_updated])).
Proof.
  unfold updateProfile, renamed. js_unfold. cbn.
  destruct (validation req) eqn:Hv; cbn;
    [| left; do 2 eexists; split; [|split; [|split]];
       [rewrite ?world_eta; reflexivity | reflexivity | discriminate
       | now left]].
  unfold lookup, lookup_email.
  destruct (find _ (users w)) as [u|] eqn:Hu; cbn;
    [| left; do 2 eexists; split; [|split; [|split]];
       [rewrite ?world_eta; reflexivity | reflexivity | discriminate
       | now left]].
  destruct (changed (body_name req) (name u)) eqn:Hn; cbn;
    (destruct (changed (body_email req) (email u)) eqn:He; cbn;
     [ destruct (find (fun x => (email x =? string_of (body_email req))%string)
                      (users w)) as [other|] eqn:Ho; cbn;
       [ left; do 2 eexists; split; [|split; [|split]];
         [reflexivity | reflexivity | discriminate | now right]
       | rewrite sendEmail_total; cbn; right; right ]
     | right; left ]);
    exists u; cbv zeta; rewrite Hn;
    repeat (split; [first [reflexivity | assumption]|]);
    unfold verify_token, verify_html, verify_text, verifyUrl; cbn;
    rewrite ?app_nil_r; reflexivity.
Qed.

(** The same three runs, read forwards from the checks that select
    them. *)
Lemma changePassword_runs req w u cp np :
  validation req = [] ->
  lookup (req_user_id req) (users w) = Some u ->
  isDeleted u = false ->
  body_currentPassword req = Some cp ->
  bcrypt_compare cp (password u) = true ->
  body_newPassword req = Some np ->
  let doc := password_changed_doc u np (clock w (ticks w)) in
  let w' := saved_then_revoked doc (refresh_sessions_of (_id u)) (tick w) in
  exists html_ text_,
    changePassword req w =
    (Normal tt, w',
     [EvUserSave doc;
      EvTokenUpdateMany (refresh_sessions_of (_id u)) revoke] ++
     trace (sendEmail (email u) "Your password was changed" html_ text_) w'
     ++ [password_updated]).
Proof.
  intros Hv Hu Hd Hcp Hm Hnp. unfold lookup in Hu.
  unfold changePassword. js_unfold. cbn.
  rewrite Hv; cbn. rewrite Hu; cbn. rewrite Hd; cbn. rewrite Hcp; cbn.
  rewrite Hm; cbn. rewrite Hnp; cbn. rewrite sendEmail_total; cbn.
  do 2 eexists. reflexivity.
Qed.

Lemma updateProfile_email_taken req w u other :
  validation req = [] ->
  lookup (req_user_id req) (users w) = Some u ->
  changed (body_email req) (email u) = true ->
  lookup_email (string_of (body_email req)) (users w) = Some other ->
  updateProfile req w = (Normal tt, tick w, [email_in_use]).
Proof.
  intros Hv Hu He Ho. unfold lookup in Hu. unfold lookup_email in Ho.
  unfold updateProfile. js_unfold. cbn.
  rewrite Hv; cbn. rewrite Hu; cbn.
  destruct (changed (body_name req) (name u)); cbn;
    rewrite He; cbn; rewrite Ho; reflexivity.
Qed.

Lemma updateProfile_changes_email req w u :
  validation req = [] ->
  lookup (req_user_id req) (users w) = Some u ->
  changed (body_email req) (email u) = true ->
  lookup_email (string_of (body_email req)) (users w) = None ->
  let email_ := string_of (body_email req) in
  let now := clock w (ticks w) in
  let rawToken := entropy w (draws w) in
  let updates :=
    fst (renamed req now u) ++
    [mkProfileUpdate "email" (email u) email_ now] in
  let doc :=
    audited updates
      (set_emailVerified false
         (set_email email_ (snd (renamed req now u)))) in
  let tok := verify_token (_id u) rawToken (clock w (S (ticks w))) in
  let w1 := with_tokens (tokens w ++ [tok]) (tick (draw (tick w))) in
  let url := verifyUrl (env w "BASE_URL") rawToken email_ in
  updateProfile req w =
  (Normal tt, with_users (replace_user doc (users w)) w1,
   [EvTokenCreate tok] ++
   trace (sendEmail email_ "Verify your new email"
            (verify_html url) (verify_text url)) w1 ++
   [EvUserSave doc; profile_updated]).
Proof.
  intros Hv Hu He Ho. unfold lookup in Hu. unfold lookup_email in Ho.
  unfold updateProfile, renamed. js_unfold. cbn.
  rewrite Hv; cbn. rewrite Hu; cbn.
  destruct (changed (body_name req) (name u)); cbn;
    rewrite He; cbn; rewrite Ho; cbn; rewrite sendEmail_total; cbn;
    unfold verify_token, verify_html, verify_text, verifyUrl; cbn;
    rewrite ?app_nil_r; reflexivity.
Qed.

Lemma getProfile_cases req w :
  exists e, getProfile req w = (Normal tt, w, [e]) /\ is_reply e = true.
Proof.
  unfold getProfile. js_unfold. cbn.
  js_case; eexists; (split; [rewrite ?world_eta; reflexivity | reflexivity]).
Qed.

End Handlers.

(** ** Revocation cascades *)

Lemma tokens_saved_then_revoked doc q w :
  tokens (saved_then_revoked doc q w) = update_many q revoke (tokens w).
Proof. reflexivity. Qed.

Lemma users_saved_then_revoked doc q w :
  users (saved_then_revoked doc q w) = replace_user doc (users w).
Proof. reflexivity. Qed.

Lemma in_singleton_reply (e e0 : Event) :
  In e [e0] -> e = e0.
Proof. intros [<-|[]]. reflexivity. Qed.

Lemma reply_in_run (pre mid : list Event) (e reply : Event) :
  In e (pre ++ mid ++ [reply]) ->
  is_reply e = true ->
  Forall (fun x => is_reply x = false) pre ->
  Forall (fun x => is_notification x = true) mid ->
  e = reply.
Proof.
  intros Hin Hr Hpre Hmid.
  apply in_app_or in Hin. destruct Hin as [Hin|Hin].
  - rewrite Forall_forall in Hpre. apply Hpre in Hin. congruence.
  - apply in_app_or in Hin. destruct Hin as [Hin|Hin].
    + rewrite Forall_forall in Hmid. apply Hmid in Hin.
      destruct e; discriminate.
    + now apply in_singleton_reply.
Qed.

(** C1: after a successful [changePassword], every token record of type
    "refresh" owned by the account is revoked, however many there were:
    the collection is the one before with exactly those records marked. *)
Theorem changePassword_revokes_every_refresh_session
    `{Externals} (req : Request) (w : World) :
  In password_updated (trace (changePassword req) w) ->
  tokens (run (changePassword req) w) =
  update_many (refresh_sessions_of (req_user_id req)) revoke (tokens w) /\
  forall t, In t (tokens (run (changePassword req) w)) ->
            user t = req_user_id req -> type t = "refresh" ->
            revoked t = true.
Proof.
  intros Hok. unfold trace, run in *.
  destruct (changePassword_cases req w)
    as [[e [Hrun [_ Hne]]] | [u [cp [np [_ [Hu [_ [_ [_ [_ Hrun]]]]]]]]]].
  - rewrite Hrun in Hok. cbn in Hok.
    apply in_singleton_reply in Hok. congruence.
  - cbv zeta in Hrun. destruct Hrun as [html_ [text_ Hrun]].
    rewrite Hrun. cbn [fst snd]. rewrite tokens_saved_then_revoked.
    apply lookup_id in Hu. rewrite Hu.
    split; [reflexivity|].
    intros t Hin Howner Hkind.
    apply update_many_revokes in Hin; [exact Hin|].
    now apply matches_owner_kind.
Qed.

Lemma changePassword_revokes_every_refresh_session_witness :
  In password_updated
     (trace (changePassword (H := Sample.externals) Sample.change_password)
            Sample.w0) /\
  (tokens (run (changePassword (H := Sample.externals)
                  Sample.change_password) Sample.w0) =
   update_many (refresh_sessions_of 1) revoke (tokens Sample.w0) /\
   forall t, In t (tokens (run (changePassword (H := Sample.externals)
                                   Sample.change_password) Sample.w0)) ->
             user t = 1 -> type t = "refresh" -> revoked t = true).
Proof.
  assert (Hok : In password_updated
            (trace (changePassword (H := Sample.externals)
                      Sample.change_password) Sample.w0))
    by (vm_compute; repeat (first [left; reflexivity | right])).
  split; [exact Hok|].
  exact (changePassword_revokes_every_refresh_session
           (H := Sample.externals) Sample.change_password Sample.w0 Hok).
Defined.

(** The example of the specification: sessions R1 and R2 are active when
    the password is changed; afterwards both are revoked, and the
    one-time token and the other account's session are as they were. *)
Example changePassword_with_two_sessions :
  tokens (run (changePassword (H := Sample.externals) Sample.change_password)
              Sample.w0) =
  [apply_update revoke Sample.R1; apply_update revoke Sample.R2;
   Sample.V1; Sample.RB].
Proof. vm_compute. reflexivity. Qed.

Lemma replay_save_revoke doc q mid us ts :
  Forall (fun e => is_notification e = true) mid ->
  replay ([EvUserSave doc; EvTokenUpdateMany q revoke] ++ mid) (us, ts) =
  (replace_user doc us, update_many q revoke ts).
Proof.
  intros Hmid. rewrite replay_app. cbn [replay fold_left apply_event fst snd].
  now apply replay_notifications.
Qed.

Lemma saved_and_revoked_before_reply doc q mid reply w :
  Forall (fun e => is_notification e = true) mid ->
  revoked_before_reply
    ([EvUserSave doc; EvTokenUpdateMany q revoke] ++ mid ++ [reply])
    (store w) (store (saved_then_revoked doc q w)) q reply.
Proof.
  intros Hmid.
  exists ([EvUserSave doc; EvTokenUpdateMany q revoke] ++ mid).
  split; [now rewrite <- app_assoc|].
  split; [right; left; reflexivity|].
  unfold store. rewrite (replay_save_revoke doc q mid _ _ Hmid).
  rewrite tokens_saved_then_revoked, users_saved_then_revoked.
  cbn [fst snd]. split; [reflexivity|]. split; [reflexivity|].
  intros t Hin Hm. now apply update_many_revokes in Hin.
Qed.

Lemma replay_reply e s : is_reply e = true -> replay [e] s = s.
Proof. now destruct e. Qed.

(** Replaying the trace of a handler on the store it started from gives
    the store it ends in: the trace misses no write. *)
Lemma trace_replay_faithful `{Externals} (req : Request) (w : World) :
  replay (trace (getProfile req) w) (store w) =
    store (run (getProfile req) w) /\
  replay (trace (updateProfile req) w) (store w) =
    store (run (updateProfile req) w) /\
  replay (trace (changePassword req) w) (store w) =
    store (run (changePassword req) w) /\
  replay (trace (softDeleteProfile req) w) (store w) =
    store (run (softDeleteProfile req) w).
Proof.
  unfold trace, run. repeat split.
  - destruct (getProfile_cases req w) as [e [Hrun Hr]]. rewrite Hrun.
    now apply replay_reply.
  - destruct (updateProfile_cases req w)
      as [[e [w' [Hrun [Hr [_ Hw']]]]]
         | [[u [_ [_ [_ Hrun]]]] | [u [_ [_ [_ [_ Hrun]]]]]]];
      cbv zeta in Hrun; rewrite Hrun; cbn [fst snd].
    + rewrite (replay_reply e _ Hr). now destruct Hw' as [-> | ->].
    + reflexivity.
    + rewrite replay_app. cbn [replay fold_left apply_event fst snd store].
      rewrite replay_app.
      rewrite (replay_notifications _ _ (sendEmail_notifies _ _ _ _ _)).
      reflexivity.
  - destruct (changePassword_cases req w)
      as [[e [Hrun [Hr _]]] | [u [cp [np [_ [_ [_ [_ [_ [_ Hrun]]]]]]]]]].
    + rewrite Hrun. now apply replay_reply.
    + cbv zeta in Hrun. destruct Hrun as [html_ [text_ Hrun]].
      rewrite Hrun. cbn [fst snd]. rewrite app_assoc, replay_app.
      unfold store at 1.
      rewrite replay_save_revoke by apply sendEmail_notifies.
      reflexivity.
  - destruct (softDeleteProfile_cases req w)
      as [[e [Hrun [Hr _]]] | [u [_ [_ Hrun]]]].
    + rewrite Hrun. now apply replay_reply.
    + cbv zeta in Hrun. destruct Hrun as [html_ [text_ Hrun]].
      rewrite Hrun. cbn [fst snd]. rewrite app_assoc, replay_app.
      unfold store at 1.
      rewrite replay_save_revoke by apply sendEmail_notifies.
      reflexivity.
Qed.

(** C2: in a successful [changePassword], and in a successful
    [softDeleteProfile], the success response is the last effect and the
    bulk revocation is among the effects before it; the effects before
    the response already lead from the store the call started on to the
    store it ends on, and in that store every refresh session (for the
    soft delete: every token) of the account is revoked. *)
Theorem revocation_precedes_success_response
    `{Externals} (req : Request) (w : World) :
  (In password_updated (trace (changePassword req) w) ->
   revoked_before_reply (trace (changePassword req) w)
     (store w) (store (run (changePassword req) w))
     (refresh_sessions_of (req_user_id req)) password_updated) /\
  (In account_deactivated (trace (softDeleteProfile req) w) ->
   revoked_before_reply (trace (softDeleteProfile req) w)
     (store w) (store (run (softDeleteProfile req) w))
     (tokens_of (req_user_id req)) account_deactivated).
Proof.
  split; intros Hok; unfold trace, run in *.
  - destruct (changePassword_cases req w)
      as [[e [Hrun [_ Hne]]] | [u [cp [np [_ [Hu [_ [_ [_ [_ Hrun]]]]]]]]]].
    + rewrite Hrun in Hok. cbn in Hok.
      apply in_singleton_reply in Hok. congruence.
    + cbv zeta in Hrun. destruct Hrun as [html_ [text_ Hrun]].
      rewrite Hrun. cbn [fst snd]. apply lookup_id in Hu. rewrite <- Hu.
      apply (saved_and_revoked_before_reply _ _ _ _ (tick w)).
      apply sendEmail_notifies.
  - destruct (softDeleteProfile_cases req w)
      as [[e [Hrun [_ Hne]]] | [u [Hu [_ Hrun]]]].
    + rewrite Hrun in Hok. cbn in Hok.
      apply in_singleton_reply in Hok. congruence.
    + cbv zeta in Hrun. destruct Hrun as [html_ [text_ Hrun]].
      rewrite Hrun. cbn [fst snd]. apply lookup_id in Hu. rewrite <- Hu.
      apply (saved_and_revoked_before_reply _ _ _ _ w).
      apply sendEmail_notifies.
Qed.

Lemma revocation_precedes_success_response_witness :
  (In password_updated
      (trace (changePassword (H := Sample.externals) Sample.change_password)
             Sample.w_refusing) /\
   revoked_before_reply
     (trace (changePassword (H := Sample.externals) Sample.change_password)
            Sample.w_refusing)
     (store Sample.w_refusing)
     (store (run (changePassword (H := Sample.externals)
                    Sample.change_password) Sample.w_refusing))
     (refresh_sessions_of 1) password_updated) /\
  (In account_deactivated
      (trace (softDeleteProfile Sample.delete_account) Sample.w0) /\
   revoked_before_reply
     (trace (softDeleteProfile Sample.delete_account) Sample.w0)
     (store Sample.w0)
     (store (run (softDeleteProfile Sample.delete_account) Sample.w0))
     (tokens_of 1) account_deactivated).
Proof.
  assert (Hcp : In password_updated
            (trace (changePassword (H := Sample.externals)
                      Sample.change_password) Sample.w_refusing))
    by (vm_compute; repeat (first [left; reflexivity | right])).
  assert (Hsd : In account_deactivated
            (trace (softDeleteProfile Sample.delete_account) Sample.w0))
    by (vm_compute; repeat (first [left; reflexivity | right])).
  split; (split; [assumption|]).
  - exact (proj1 (revocation_precedes_success_response
                    (H := Sample.externals) Sample.change_password
                    Sample.w_refusing) Hcp).
  - exact (proj2 (revocation_precedes_success_response
                    (H := Sample.externals) Sample.delete_account
                    Sample.w0) Hsd).
Defined.

(** C4: after a successful [softDeleteProfile] the stored account has
    [isDeleted = true] and every token record it owns, of whatever type,
    has [revoked = true]: the collection is the one before with exactly
    the account's records marked. *)
Theorem softDeleteProfile_deactivates_and_revokes
    `{Externals} (req : Request) (w : World) :
  In account_deactivated (trace (softDeleteProfile req) w) ->
  (exists u', lookup (req_user_id req)
                     (users (run (softDeleteProfile req) w)) = Some u' /\
              isDeleted u' = true) /\
  tokens (run (softDeleteProfile req) w) =
  update_many (tokens_of (req_user_id req)) revoke (tokens w) /\
  forall t, In t (tokens (run (softDeleteProfile req) w)) ->
            user t = req_user_id req -> revoked t = true.
Proof.
  intros Hok. unfold trace, run in *.
  destruct (softDeleteProfile_cases req w)
    as [[e [Hrun [_ Hne]]] | [u [Hu [_ Hrun]]]].
  - rewrite Hrun in Hok. cbn in Hok.
    apply in_singleton_reply in Hok. congruence.
  - cbv zeta in Hrun. destruct Hrun as [html_ [text_ Hrun]].
    rewrite Hrun. cbn [fst snd].
    rewrite tokens_saved_then_revoked, users_saved_then_revoked.
    pose proof (lookup_id _ _ _ Hu) as Hid.
    split; [|split].
    + exists (deactivated_doc u). split; [|reflexivity].
      rewrite <- Hid in *.
      apply (lookup_replace_same (deactivated_doc u) (users w) u Hu).
    + now rewrite Hid.
    + intros t Hin Howner.
      apply update_many_revokes in Hin; [exact Hin|].
      apply matches_owner. congruence.
Qed.

Lemma softDeleteProfile_deactivates_and_revokes_witness :
  In account_deactivated
     (trace (softDeleteProfile Sample.delete_account) Sample.w0) /\
  ((exists u', lookup 1 (users (run (softDeleteProfile Sample.delete_account)
                                    Sample.w0)) = Some u' /\
               isDeleted u' = true) /\
   tokens (run (softDeleteProfile Sample.delete_account) Sample.w0) =
   update_many (tokens_of 1) revoke (tokens Sample.w0) /\
   forall t, In t (tokens (run (softDeleteProfile Sample.delete_account)
                               Sample.w0)) ->
             user t = 1 -> revoked t = true).
Proof.
  assert (Hok : In account_deactivated
            (trace (softDeleteProfile Sample.delete_account) Sample.w0))
    by (vm_compute; repeat (first [left; reflexivity | right])).
  split; [exact Hok|].
  exact (softDeleteProfile_deactivates_and_revokes
           (H := Sample.externals) Sample.delete_account Sample.w0 Hok).
Defined.

(** ** Errors and the notification channel *)

(** C8: when [changePassword] replies with anything other than its
    success response (user not found, account deactivated, wrong current
    password, and likewise a validation error or a rejected bcrypt call),
    the world is exactly the one it started in (same stored password
    hash, same audit log, same token records) and the reply is the only
    effect: nothing was saved, revoked, logged or mailed. *)
Theorem changePassword_error_is_atomic
    `{Externals} (req : Request) (w : World) (e : Event) :
  In e (trace (changePassword req) w) ->
  is_reply e = true ->
  e <> password_updated ->
  run (changePassword req) w = w /\
  trace (changePassword req) w = [e].
Proof.
  intros Hin Hreply Hne. unfold trace, run in *.
  destruct (changePassword_cases req w)
    as [[e0 [Hrun _]] | [u [cp [np [_ [_ [_ [_ [_ [_ Hrun]]]]]]]]]].
  - rewrite Hrun in *. cbn in *.
    apply in_singleton_reply in Hin. now subst e0.
  - cbv zeta in Hrun. destruct Hrun as [html_ [text_ Hrun]].
    rewrite Hrun in Hin. cbn [snd] in Hin. exfalso. apply Hne.
    apply (reply_in_run _ _ _ _ Hin Hreply).
    + repeat (constructor; [reflexivity|]). constructor.
    + apply sendEmail_notifies.
Qed.

Lemma changePassword_error_is_atomic_witness :
  run (changePassword (H := Sample.externals) Sample.wrong_password)
      Sample.w0 = Sample.w0 /\
  trace (changePassword (H := Sample.externals) Sample.wrong_password)
        Sample.w0 =
  [EvRespond 400 (JMessage "Current password is incorrect")].
Proof.
  apply (changePassword_error_is_atomic (H := Sample.externals)
           Sample.wrong_password Sample.w0
           (EvRespond 400 (JMessage "Current password is incorrect"))).
  - vm_compute. left. reflexivity.
  - reflexivity.
  - discriminate.
Defined.

Lemma reply_is_no_write e : is_reply e = true -> is_write e = false.
Proof. now destruct e. Qed.

Lemma notification_is_no_next e :
  is_notification e = true -> is_next e = false.
Proof. now destruct e. Qed.

Lemma succeeds_around_mail pre mid post reply :
  Forall (fun e => is_next e = false) pre ->
  Forall (fun e => is_notification e = true) mid ->
  Forall (fun e => is_next e = false) (post ++ [reply]) ->
  succeeds_with reply (Normal tt) (pre ++ mid ++ post ++ [reply]).
Proof.
  intros Hpre Hmid Hpost. split; [reflexivity|]. split.
  - exists (pre ++ mid ++ post). now rewrite <- !app_assoc.
  - intros err Hin.
    assert (Hall : Forall (fun e => is_next e = false)
                          (pre ++ mid ++ post ++ [reply])).
    { apply Forall_app. split; [exact Hpre|].
      apply Forall_app. split; [|exact Hpost].
      eapply Forall_impl; [|exact Hmid].
      intros e. apply notification_is_no_next. }
    rewrite Forall_forall in Hall. apply Hall in Hin. discriminate.
Qed.

(** C5: [sendEmail] completes normally on every input and in every
    world, whatever the transport is or does, and it changes nothing.
    So a [changePassword] or [softDeleteProfile] that has written to a
    collection completes normally, ends with its success response and
    never calls [next], also when the transport rejects the mail.  The
    first write of these two is the save of the account.  In
    [updateProfile] the verification token is created on line 51, before
    the mail is attempted and before the account is saved on line 66; of
    it the same is stated from the save on. *)
Theorem sendEmail_never_throws `{Externals} :
  (forall to_ subject_ html_ text_ w,
      completion (sendEmail to_ subject_ html_ text_) w = Normal tt /\
      run (sendEmail to_ subject_ html_ text_) w = w) /\
  (forall req w e,
      is_write e = true ->
      (In e (trace (changePassword req) w) ->
       succeeds_with password_updated
         (completion (changePassword req) w)
         (trace (changePassword req) w)) /\
      (In e (trace (softDeleteProfile req) w) ->
       succeeds_with account_deactivated
         (completion (softDeleteProfile req) w)
         (trace (softDeleteProfile req) w))) /\
  (forall req w doc,
      In (EvUserSave doc) (trace (updateProfile req) w) ->
      succeeds_with profile_updated
        (completion (updateProfile req) w)
        (trace (updateProfile req) w)).
Proof.
  split; [|split].
  - intros. unfold completion, run. now rewrite sendEmail_total.
  - intros req w e Hwrite. unfold completion, trace.
    split; intros Hin.
    + destruct (changePassword_cases req w)
        as [[e0 [Hrun [Hr _]]] | [u [cp [np [_ [_ [_ [_ [_ [_ Hrun]]]]]]]]]].
      * rewrite Hrun in Hin. cbn in Hin.
        apply in_singleton_reply in Hin. subst e0.
        apply reply_is_no_write in Hr. congruence.
      * cbv zeta in Hrun. destruct Hrun as [html_ [text_ Hrun]].
        rewrite Hrun. cbn [fst snd].
        apply (succeeds_around_mail _ _ []).
        -- repeat (constructor; [reflexivity|]). constructor.
        -- apply sendEmail_notifies.
        -- repeat (constructor; [reflexivity|]). constructor.
    + destruct (softDeleteProfile_cases req w)
        as [[e0 [Hrun [Hr _]]] | [u [_ [_ Hrun]]]].
      * rewrite Hrun in Hin. cbn in Hin.
        apply in_singleton_reply in Hin. subst e0.
        apply reply_is_no_write in Hr. congruence.
      * cbv zeta in Hrun. destruct Hrun as [html_ [text_ Hrun]].
        rewrite Hrun. cbn [fst snd].
        apply (succeeds_around_mail _ _ []).
        -- repeat (constructor; [reflexivity|]). constructor.
        -- apply sendEmail_notifies.
        -- repeat (constructor; [reflexivity|]). constructor.
  - intros req w doc Hin. unfold completion, trace in *.
    destruct (updateProfile_cases req w)
      as [[e0 [w' [Hrun [Hr _]]]]
         | [[u [_ [_ [_ Hrun]]]] | [u [_ [_ [_ [_ Hrun]]]]]]];
      cbv zeta in Hrun.
    + rewrite Hrun in Hin. cbn in Hin.
      apply in_singleton_reply in Hin. subst e0. discriminate.
    + rewrite Hrun. cbn [fst snd].
      apply (succeeds_around_mail [EvUserSave _] [] []).
      * repeat (constructor; [reflexivity|]). constructor.
      * constructor.
      * repeat (constructor; [reflexivity|]). constructor.
    + rewrite Hrun. cbn [fst snd].
      apply (succeeds_around_mail _ _ [EvUserSave _]).
      * repeat (constructor; [reflexivity|]). constructor.
      * apply sendEmail_notifies.
      * repeat (constructor; [reflexivity|]). constructor.
Qed.

Lemma sendEmail_never_throws_witness :
  succeeds_with password_updated
    (completion (changePassword (H := Sample.externals)
                   Sample.change_password) Sample.w_refusing)
    (trace (changePassword (H := Sample.externals) Sample.change_password)
           Sample.w_refusing).
Proof.
  apply (proj1 (proj1 (proj2 (sendEmail_never_throws
                                (H := Sample.externals)))
                  Sample.change_password Sample.w_refusing
                  (EvTokenUpdateMany (refresh_sessions_of 1) revoke)
                  eq_refl)).
  vm_compute. right. left. reflexivity.
Defined.

(** With a transport that refuses the mail, the refusal is logged after
    the attempt and the response follows. *)
Example changePassword_survives_refused_mail :
  exists pre m,
    trace (changePassword (H := Sample.externals) Sample.change_password)
          Sample.w_refusing =
    pre ++ [EvSendMail m;
            EvConsoleError [VString "Error sending email:";
                            VErr "Error: connect ECONNREFUSED"];
            password_updated].
Proof.
  exists (firstn 9 (trace (changePassword (H := Sample.externals)
                             Sample.change_password) Sample.w_refusing)).
  eexists. vm_compute. reflexivity.
Qed.

(** ** The transport *)

Lemma reply_is_no_delivery e : is_reply e = true -> is_delivery e = false.
Proof. now destruct e. Qed.

Lemma notification_is_no_token_create e :
  is_notification e = true -> is_token_create e = false.
Proof. now destruct e. Qed.

Section Transport.
Context `{Externals}.

Lemma exec_keeps_transporter op w :
  transporter (run (exec op) w) = transporter w.
Proof.
  unfold run. destruct op as [req|req|req|req|a b c d|us ts]; cbn [exec].
  - destruct (getProfile_cases req w) as [e [Hrun _]]. now rewrite Hrun.
  - destruct (updateProfile_cases req w)
      as [[e [w' [Hrun [_ [_ [-> | ->]]]]]]
         | [[u [_ [_ [_ Hrun]]]] | [u [_ [_ [_ [_ Hrun]]]]]]];
      cbv zeta in Hrun; now rewrite Hrun.
  - destruct (changePassword_cases req w)
      as [[e [Hrun _]] | [u [cp [np [_ [_ [_ [_ [_ [_ Hrun]]]]]]]]]].
    + now rewrite Hrun.
    + cbv zeta in Hrun. destruct Hrun as [html_ [text_ Hrun]].
      now rewrite Hrun.
  - destruct (softDeleteProfile_cases req w)
      as [[e [Hrun _]] | [u [_ [_ Hrun]]]].
    + now rewrite Hrun.
    + cbv zeta in Hrun. destruct Hrun as [html_ [text_ Hrun]].
      now rewrite Hrun.
  - now rewrite sendEmail_total.
  - reflexivity.
Qed.

Lemma undelivered_run pre mid post :
  Forall (fun e => is_delivery e = false) pre ->
  mid = [EvConsoleError [VString "Error: Transporter is not initialized."]] ->
  Forall (fun e => is_delivery e = false) post ->
  Forall (fun e => is_delivery e = false) (pre ++ mid ++ post).
Proof.
  intros Hpre -> Hpost. apply Forall_app. split; [exact Hpre|].
  apply Forall_app. split; [|exact Hpost].
  constructor; [reflexivity | constructor].
Qed.

Lemma exec_delivers_nothing op w :
  transporter w = None ->
  Forall (fun e => is_delivery e = false) (trace (exec op) w).
Proof.
  intros Hnull. unfold trace.
  destruct op as [req|req|req|req|a b c d|us ts]; cbn [exec].
  - destruct (getProfile_cases req w) as [e [Hrun Hr]]. rewrite Hrun.
    constructor; [now apply reply_is_no_delivery | constructor].
  - destruct (updateProfile_cases req w)
      as [[e [w' [Hrun [Hr _]]]]
         | [[u [_ [_ [_ Hrun]]]] | [u [_ [_ [_ [_ Hrun]]]]]]];
      cbv zeta in Hrun; rewrite Hrun; cbn [snd].
    + constructor; [now apply reply_is_no_delivery | constructor].
    + repeat (constructor; [reflexivity|]). constructor.
    + apply undelivered_run.
      * repeat (constructor; [reflexivity|]). constructor.
      * now apply sendEmail_uninitialized.
      * repeat (constructor; [reflexivity|]). constructor.
  - destruct (changePassword_cases req w)
      as [[e [Hrun [Hr _]]] | [u [cp [np [_ [_ [_ [_ [_ [_ Hrun]]]]]]]]]].
    + rewrite Hrun.
      constructor; [now apply reply_is_no_delivery | constructor].
    + cbv zeta in Hrun. destruct Hrun as [html_ [text_ Hrun]].
      rewrite Hrun. cbn [snd]. apply undelivered_run.
      * repeat (constructor; [reflexivity|]). constructor.
      * now apply sendEmail_uninitialized.
      * repeat (constructor; [reflexivity|]). constructor.
  - destruct (softDeleteProfile_cases req w)
      as [[e [Hrun [Hr _]]] | [u [_ [_ Hrun]]]].
    + rewrite Hrun.
      constructor; [now apply reply_is_no_delivery | constructor].
    + cbv zeta in Hrun. destruct Hrun as [html_ [text_ Hrun]].
      rewrite Hrun. cbn [snd]. apply undelivered_run.
      * repeat (constructor; [reflexivity|]). constructor.
      * now apply sendEmail_uninitialized.
      * repeat (constructor; [reflexivity|]). constructor.
  - fold (trace (sendEmail a b c d) w).
    rewrite (sendEmail_uninitialized a b c d w Hnull).
    constructor; [reflexivity | constructor].
  - constructor.
Qed.

Lemma serve_uninitialized ops w :
  transporter w = None ->
  transporter (fst (serve ops w)) = None /\
  Forall (fun e => is_delivery e = false) (snd (serve ops w)).
Proof.
  revert w. induction ops as [|op rest IH]; intros w Hnull.
  - split; [exact Hnull | constructor].
  - cbn [serve].
    pose proof (exec_keeps_transporter op w) as Hkeep.
    pose proof (exec_delivers_nothing op w Hnull) as Hnone.
    unfold run, trace in Hkeep, Hnone.
    destruct (exec op w) as [[c w1] t1]. cbn [fst snd] in Hkeep, Hnone.
    assert (Hnull1 : transporter w1 = None) by congruence.
    destruct (IH w1 Hnull1) as [IHt IHd].
    destruct (serve rest w1) as [w2 t2]. cbn [fst snd] in *.
    split; [exact IHt|]. apply Forall_app. now split.
Qed.

End Transport.

(** C9: the module starts with [transporter = null]; whatever calls are
    then served, in whatever order, the variable is still null, so every
    call of [sendEmail] logs the one error line and returns without
    touching the transport, and no effect of the whole run is a mail
    handed to a transport. *)
Theorem transporter_is_never_initialized
    `{Externals} (ops : list Op) (w : World) :
  transporter (module_init w) = None /\
  transporter (fst (serve ops (module_init w))) = None /\
  (forall to_ subject_ html_ text_,
      sendEmail to_ subject_ html_ text_ (fst (serve ops (module_init w))) =
      (Normal tt, fst (serve ops (module_init w)),
       [EvConsoleError
          [VString "Error: Transporter is not initialized."]])) /\
  Forall (fun e => is_delivery e = false) (snd (serve ops (module_init w))).
Proof.
  assert (Hinit : transporter (module_init w) = None) by reflexivity.
  destruct (serve_uninitialized ops (module_init w) Hinit) as [Hnull Hnone].
  repeat split; try assumption.
  intros to_ subject_ html_ text_.
  rewrite sendEmail_total. f_equal.
  now apply sendEmail_uninitialized.
Qed.

(** ** The verify token of an email change *)

Lemma filter_app_singleton {A} (f : A -> bool) (x : A) (l : list A) :
  f x = true -> filter f ([x] ++ l) = x :: filter f l.
Proof. intros Hx. cbn. now rewrite Hx. Qed.

Lemma filter_none {A} (f : A -> bool) (l : list A) :
  Forall (fun x => f x = false) l -> filter f l = [].
Proof.
  induction 1 as [|x l Hx _ IH]; [reflexivity|]. cbn. now rewrite Hx.
Qed.

Lemma sendEmail_creates_no_token to_ subject_ html_ text_ w :
  Forall (fun e => is_token_create e = false)
         (trace (sendEmail to_ subject_ html_ text_) w).
Proof.
  eapply Forall_impl; [|apply sendEmail_notifies].
  intros e. apply notification_is_no_token_create.
Qed.

(** C10: every token record that [updateProfile] creates is of type
    "verify" and expires exactly [24 * 60 * 60 * 1000] ms after the clock
    reading taken when it is issued, which is the second and last reading
    of the call; the same record is created under every process
    environment, so no configuration option enters the TTL. *)
Theorem verify_token_expires_after_24_hours
    `{Externals} (req : Request) (w : World) (tok : TokenDoc) :
  In (EvTokenCreate tok) (trace (updateProfile req) w) ->
  type tok = "verify" /\
  expiresAt tok = (issuance_time w + 24 * 60 * 60 * 1000)%Z /\
  ticks (run (updateProfile req) w) = S (S (ticks w)) /\
  forall env', In (EvTokenCreate tok)
                  (trace (updateProfile req) (with_env env' w)).
Proof.
  intros Hin. unfold trace, run in *.
  destruct (updateProfile_cases req w)
    as [[e [w' [Hrun [Hr _]]]]
       | [[u [_ [_ [_ Hrun]]]] | [u [Hv [Hu [He [Ho Hrun]]]]]]];
    cbv zeta in Hrun; rewrite Hrun in Hin; cbn [snd] in Hin.
  - apply in_singleton_reply in Hin. subst e. discriminate.
  - destruct Hin as [Hin|[Hin|[]]]; discriminate.
  - assert (Htok : tok = verify_token (_id u) (entropy w (draws w))
                                      (clock w (S (ticks w)))).
    { apply in_app_or in Hin. destruct Hin as [[Hin|[]]|Hin].
      - now inversion Hin.
      - apply in_app_or in Hin. destruct Hin as [Hin|Hin].
        + pose proof (sendEmail_creates_no_token
                        (string_of (body_email req)) "Verify your new email"
                        (verify_html
                           (verifyUrl (env w "BASE_URL") (entropy w (draws w))
                              (string_of (body_email req))))
                        (verify_text
                           (verifyUrl (env w "BASE_URL") (entropy w (draws w))
                              (string_of (body_email req))))
                        (with_tokens
                           (tokens w ++
                            [verify_token (_id u) (entropy w (draws w))
                               (clock w (S (ticks w)))])
                           (tick (draw (tick w))))) as Hnone.
          rewrite Forall_forall in Hnone. apply Hnone in Hin. discriminate.
        + destruct Hin as [Hin|[Hin|[]]]; discriminate. }
    subst tok. rewrite Hrun. cbn [fst snd].
    split; [reflexivity|]. split; [reflexivity|]. split; [reflexivity|].
    intros env'.
    rewrite (updateProfile_changes_email req (with_env env' w) u Hv Hu He Ho).
    cbn [snd]. left. reflexivity.
Qed.

Lemma verify_token_expires_after_24_hours_witness :
  type (verify_token (H := Sample.externals) 1 "s3cr3t" 1700000000001)
  = "verify" /\
  expiresAt (verify_token (H := Sample.externals) 1 "s3cr3t" 1700000000001)
  = (issuance_time Sample.w0 + 24 * 60 * 60 * 1000)%Z /\
  ticks (run (updateProfile (H := Sample.externals) Sample.change_email)
             Sample.w0) = S (S (ticks Sample.w0)) /\
  forall env',
    In (EvTokenCreate
          (verify_token (H := Sample.externals) 1 "s3cr3t" 1700000000001))
       (trace (updateProfile (H := Sample.externals) Sample.change_email)
              (with_env env' Sample.w0)).
Proof.
  apply (verify_token_expires_after_24_hours (H := Sample.externals)
           Sample.change_email Sample.w0).
  vm_compute. left. reflexivity.
Defined.

Section EmailChange.
Context `{Externals}.

Lemma renamed_keeps req now u :
  _id (snd (renamed req now u)) = _id u /\
  email (snd (renamed req now u)) = email u /\
  emailVerified (snd (renamed req now u)) = emailVerified u /\
  profileUpdates (snd (renamed req now u)) = profileUpdates u.
Proof. unfold renamed. now destruct (changed _ _). Qed.

Lemma audited_keeps updates u :
  _id (audited updates u) = _id u /\
  name (audited updates u) = name u /\
  email (audited updates u) = email u /\
  emailVerified (audited updates u) = emailVerified u /\
  profileUpdates (audited updates u) = profileUpdates u ++ updates.
Proof.
  destruct updates; cbn; repeat split; try reflexivity.
  now rewrite app_nil_r.
Qed.

Lemma changed_some e current :
  e <> "" -> e <> current -> changed (Some e) current = true.
Proof.
  intros He Hc. unfold changed, truthy, strict_neq, string_of.
  apply String.eqb_neq in He. apply String.eqb_neq in Hc.
  now rewrite He, Hc.
Qed.

Lemma outside_mail tok mid doc :
  Forall (fun e => is_notification e = true) mid ->
  filter outside_notification
         ([EvTokenCreate tok] ++ mid ++ [EvUserSave doc; profile_updated]) =
  [EvTokenCreate tok; EvUserSave doc; profile_updated].
Proof.
  intros Hmid. rewrite filter_app_singleton by reflexivity.
  rewrite filter_app, (filter_none outside_notification mid).
  - reflexivity.
  - eapply Forall_impl; [|exact Hmid].
    intros e He. unfold outside_notification. now rewrite He.
Qed.

Lemma one_token_created tok mid doc :
  Forall (fun e => is_notification e = true) mid ->
  filter is_token_create
         ([EvTokenCreate tok] ++ mid ++ [EvUserSave doc; profile_updated]) =
  [EvTokenCreate tok].
Proof.
  intros Hmid. rewrite filter_app_singleton by reflexivity.
  rewrite filter_app, (filter_none is_token_create mid).
  - reflexivity.
  - eapply Forall_impl; [|exact Hmid].
    intros e. apply notification_is_no_token_create.
Qed.

End EmailChange.

(** C3: when [updateProfile] changes the stored email of the account, the
    stored account has [emailVerified = false]; exactly one token record
    is created, appended to the collection: of type "verify", holding the
    hash of the fresh secret and the expiry and no other trace of the
    secret.  The effects of the call are that record, what [sendEmail]
    does with the mail to the new address carrying the verify URL, the
    save and the response; and the two collections and every effect
    outside [sendEmail] stay the same when the secret is replaced by
    another one with the same hash. *)
Theorem email_change_issues_one_hashed_verify_token
    `{Externals} (req : Request) (w : World) (u u' : UserDoc) :
  lookup (req_user_id req) (users w) = Some u ->
  lookup (req_user_id req) (users (run (updateProfile req) w)) = Some u' ->
  email u' <> email u ->
  let rawToken := entropy w (draws w) in
  let tok := mkToken (_id u) None (Some (hashToken rawToken)) "verify"
                     (issuance_time w + 24 * 60 * 60 * 1000)%Z false false in
  emailVerified u' = false /\
  tokens (run (updateProfile req) w) = tokens w ++ [tok] /\
  filter is_token_create (trace (updateProfile req) w) = [EvTokenCreate tok] /\
  (let url := verifyUrl (env w "BASE_URL") rawToken (email u') in
   trace (updateProfile req) w =
   [EvTokenCreate tok] ++
   trace (sendEmail (email u') "Verify your new email"
            (verify_html url) (verify_text url)) w ++
   [EvUserSave u'; profile_updated]) /\
  (forall entropy',
      hashToken (entropy' (draws w)) = hashToken rawToken ->
      users (run (updateProfile req) (with_entropy entropy' w)) =
      users (run (updateProfile req) w) /\
      tokens (run (updateProfile req) (with_entropy entropy' w)) =
      tokens (run (updateProfile req) w) /\
      filter outside_notification
             (trace (updateProfile req) (with_entropy entropy' w)) =
      filter outside_notification (trace (updateProfile req) w)).
Proof.
  intros Hu Hu' Hne. cbv zeta. unfold trace, run in *.
  pose proof (lookup_id _ _ _ Hu) as Hid.
  destruct (updateProfile_cases req w)
    as [[e [w' [Hrun [_ [_ Hw']]]]]
       | [[u0 [_ [Hu0 [_ Hrun]]]] | [u0 [Hv [Hu0 [He [Ho Hrun]]]]]]];
    cbv zeta in Hrun.
  - exfalso. apply Hne. rewrite Hrun in Hu'. cbn [fst snd] in Hu'.
    assert (Hsame : users w' = users w)
      by (destruct Hw' as [-> | ->]; reflexivity).
    rewrite Hsame in Hu'. congruence.
  - exfalso. apply Hne. rewrite Hrun in Hu'. cbn [fst snd] in Hu'.
    assert (u0 = u) by congruence. subst u0.
    change (users (with_users ?us _)) with us in Hu'.
    set (doc := audited _ _) in *.
    assert (Hdoc : _id doc = req_user_id req).
    { unfold doc.
      rewrite (proj1 (audited_keeps _ _)), (proj1 (renamed_keeps _ _ _)).
      exact Hid. }
    rewrite <- Hdoc in Hu, Hu'.
    rewrite (lookup_replace_same doc (users w) u Hu) in Hu'.
    inversion Hu'; subst u'. unfold doc.
    rewrite (proj1 (proj2 (proj2 (audited_keeps _ _)))).
    apply (proj1 (proj2 (renamed_keeps _ _ _))).
  - assert (u0 = u) by congruence. subst u0. clear Hu0.
    set (now := clock w (ticks w)) in *.
    set (doc := audited _ _) in *.
    set (tok := verify_token _ _ _) in *.
    assert (Hdoc : _id doc = req_user_id req).
    { unfold doc. rewrite (proj1 (audited_keeps _ _)). cbn.
      rewrite (proj1 (renamed_keeps _ _ _)). exact Hid. }
    assert (Hu'' : u' = doc).
    { rewrite Hrun in Hu'. cbn [fst snd] in Hu'.
      change (users (with_users ?us _)) with us in Hu'.
      rewrite <- Hdoc in Hu, Hu'.
      rewrite (lookup_replace_same doc (users w) u Hu) in Hu'.
      now inversion Hu'. }
    subst u'. rewrite Hrun. cbn [fst snd].
    split; [|split; [|split; [|split]]].
    + unfold doc.
      now rewrite (proj1 (proj2 (proj2 (proj2 (audited_keeps _ _))))).
    + reflexivity.
    + apply one_token_created, sendEmail_notifies.
    + assert (Hto : email doc = string_of (body_email req)).
      { unfold doc.
        now rewrite (proj1 (proj2 (proj2 (audited_keeps _ _)))). }
      rewrite Hto. cbv zeta. f_equal. f_equal.
      now apply sendEmail_trace_frame.
    + intros entropy' Hhash.
      rewrite (updateProfile_changes_email
                 req (with_entropy entropy' w) u Hv Hu He Ho).
      cbn [fst snd].
      assert (Htok : verify_token (_id u)
                       (entropy (with_entropy entropy' w)
                                (draws (with_entropy entropy' w)))
                       (clock (with_entropy entropy' w)
                              (S (ticks (with_entropy entropy' w)))) = tok).
      { unfold tok, verify_token. cbn. now rewrite Hhash. }
      rewrite Htok.
      split; [reflexivity|]. split; [reflexivity|].
      rewrite !outside_mail by apply sendEmail_notifies.
      reflexivity.
Qed.

Lemma email_change_issues_one_hashed_verify_token_witness :
  exists u',
    lookup 1 (users (run (updateProfile (H := Sample.externals)
                            Sample.change_email) Sample.w0)) = Some u' /\
    emailVerified u' = false /\
    tokens (run (updateProfile (H := Sample.externals) Sample.change_email)
                Sample.w0) =
    tokens Sample.w0 ++
    [mkToken 1 None (Some "sha256:s3cr3t") "verify" 1700086400001
             false false].
Proof.
  exists (mkUser 1 "Alice" "alice.new@example.com" "$2b$12$OldPass123!"
                 Viewer false None false
                 [mkProfileUpdate "email" "alice@example.com"
                    "alice.new@example.com" 1700000000000]).
  assert (Hu' : lookup 1 (users (run (updateProfile (H := Sample.externals)
                                       Sample.change_email) Sample.w0)) =
                Some (mkUser 1 "Alice" "alice.new@example.com"
                        "$2b$12$OldPass123!" Viewer false None false
                        [mkProfileUpdate "email" "alice@example.com"
                           "alice.new@example.com" 1700000000000]))
    by (vm_compute; reflexivity).
  split; [exact Hu'|].
  pose proof (email_change_issues_one_hashed_verify_token
                (H := Sample.externals) Sample.change_email Sample.w0
                Sample.alice _ eq_refl Hu') as Hthm.
  cbv zeta in Hthm.
  destruct Hthm as [Hverified [Htokens _]]; [discriminate|].
  split; [exact Hverified | exact Htokens].
Defined.

(** ** The uniqueness pre-check *)

(** C6, as the code has it: a request that passed validation, from a
    caller whose account exists, asking for a non-empty email that
    differs from the caller's and that some stored account already has,
    is answered with 400 "Email already in use" and nothing else happens:
    both collections are as before, so no field of the account changed,
    no audit entry was appended and no verify token was created. *)
Theorem updateProfile_rejects_taken_email
    `{Externals} (req : Request) (w : World) (u other : UserDoc)
    (e : string) :
  validation req = [] ->
  lookup (req_user_id req) (users w) = Some u ->
  body_email req = Some e ->
  e <> "" ->
  e <> email u ->
  lookup_email e (users w) = Some other ->
  trace (updateProfile req) w = [email_in_use] /\
  users (run (updateProfile req) w) = users w /\
  tokens (run (updateProfile req) w) = tokens w.
Proof.
  intros Hv Hu Hbody Hne Hdiff Hother.
  assert (Hchanged : changed (body_email req) (email u) = true)
    by (rewrite Hbody; now apply changed_some).
  assert (Htaken : lookup_email (string_of (body_email req)) (users w)
                   = Some other) by now rewrite Hbody.
  unfold trace, run.
  rewrite (updateProfile_email_taken req w u other Hv Hu Hchanged Htaken).
  repeat split.
Qed.

Lemma updateProfile_rejects_taken_email_witness :
  trace (updateProfile (H := Sample.externals) Sample.take_bobs_email)
        Sample.w0 = [email_in_use] /\
  users (run (updateProfile (H := Sample.externals) Sample.take_bobs_email)
             Sample.w0) = users Sample.w0 /\
  tokens (run (updateProfile (H := Sample.externals) Sample.take_bobs_email)
              Sample.w0) = tokens Sample.w0.
Proof.
  apply (updateProfile_rejects_taken_email (H := Sample.externals)
           Sample.take_bobs_email Sample.w0 Sample.alice Sample.bob
           "bob@example.com");
    first [reflexivity | discriminate].
Defined.

(** C6 as stated fails: the request below asks for Bob's email, which
    differs from Alice's, and Bob's account exists; the name it also
    carries failed validation, so the answer is the list of validation
    errors and not "Email already in use". *)
Lemma updateProfile_validation_gate_precedes_email_check :
  lookup (req_user_id Sample.short_name_and_bobs_email) (users Sample.w0)
  = Some Sample.alice /\
  body_email Sample.short_name_and_bobs_email = Some "bob@example.com" /\
  "bob@example.com" <> email Sample.alice /\
  lookup_email "bob@example.com" (users Sample.w0) = Some Sample.bob /\
  trace (updateProfile (H := Sample.externals)
           Sample.short_name_and_bobs_email) Sample.w0 =
  [EvRespond 400 (JErrors ["name: Invalid value"])] /\
  ~ In email_in_use
       (trace (updateProfile (H := Sample.externals)
                 Sample.short_name_and_bobs_email) Sample.w0).
Proof.
  repeat split; try reflexivity; try discriminate.
  vm_compute. intros [Heq|[]]. discriminate.
Qed.

(** ** The audit log *)






(** * Further properties of the routes *)

(** ** Forward execution of the remaining paths *)

Section MorePaths.
Context `{Externals}.

Lemma getProfile_runs req w :
  getProfile req w =
  (Normal tt, w,
   [match lookup (req_user_id req) (users w) with
    | Some u => EvRespond 200 (JUser (User.select_minus_password u))
    | None => EvRespond 404 (JMessage "User not found")
    end]).
Proof.
  unfold getProfile, lookup. js_unfold. cbn.
  destruct (find _ (users w)); cbn; now rewrite ?world_eta.
Qed.

Lemma validation_gate req w e l :
  validation req = e :: l ->
  updateProfile req w =
    (Normal tt, w, [EvRespond 400 (JErrors (e :: l))]) /\
  changePassword req w =
    (Normal tt, w, [EvRespond 400 (JErrors (e :: l))]).
Proof.
  intros Hv. unfold updateProfile, changePassword. js_unfold. cbn.
  rewrite Hv. cbn. now rewrite ?world_eta.
Qed.

Lemma softDeleteProfile_unknown req w :
  lookup (req_user_id req) (users w) = None ->
  softDeleteProfile req w =
  (Normal tt, w, [EvRespond 404 (JMessage "User not found")]).
Proof.
  intros Hu. unfold lookup in Hu. unfold softDeleteProfile. js_unfold. cbn.
  rewrite Hu. cbn. now rewrite ?world_eta.
Qed.

Lemma softDeleteProfile_already req w u :
  lookup (req_user_id req) (users w) = Some u ->
  isDeleted u = true ->
  softDeleteProfile req w =
  (Normal tt, w, [EvRespond 400 (JMessage "Account already deactivated")]).
Proof.
  intros Hu Hd. unfold lookup in Hu. unfold softDeleteProfile. js_unfold.
  cbn. rewrite Hu. cbn. rewrite Hd. cbn. now rewrite ?world_eta.
Qed.

Lemma changePassword_deactivated req w u :
  validation req = [] ->
  lookup (req_user_id req) (users w) = Some u ->
  isDeleted u = true ->
  changePassword req w =
  (Normal tt, w, [EvRespond 403 (JMessage "Account deactivated")]).
Proof.
  intros Hv Hu Hd. unfold lookup in Hu. unfold changePassword. js_unfold.
  cbn. rewrite Hv. cbn. rewrite Hu. cbn. rewrite Hd. cbn.
  now rewrite ?world_eta.
Qed.

Lemma changePassword_mismatch req w u cp :
  validation req = [] ->
  lookup (req_user_id req) (users w) = Some u ->
  isDeleted u = false ->
  body_currentPassword req = Some cp ->
  bcrypt_compare cp (password u) = false ->
  changePassword req w =
  (Normal tt, w, [EvRespond 400 (JMessage "Current password is incorrect")]).
Proof.
  intros Hv Hu Hd Hcp Hm. unfold lookup in Hu. unfold changePassword.
  js_unfold. cbn. rewrite Hv. cbn. rewrite Hu. cbn. rewrite Hd. cbn.
  rewrite Hcp. cbn. rewrite Hm. cbn. now rewrite ?world_eta.
Qed.

Lemma updateProfile_keeps_email req w u :
  validation req = [] ->
  lookup (req_user_id req) (users w) = Some u ->
  changed (body_email req) (email u) = false ->
  let now := clock w (ticks w) in
  let doc := audited (fst (renamed req now u)) (snd (renamed req now u)) in
  updateProfile req w =
  (Normal tt, with_users (replace_user doc (users w)) (tick w),
   [EvUserSave doc; profile_updated]).
Proof.
  intros Hv Hu He. unfold lookup in Hu.
  unfold updateProfile, renamed. js_unfold. cbn.
  rewrite Hv; cbn. rewrite Hu; cbn.
  destruct (changed (body_name req) (name u)); cbn; rewrite He; reflexivity.
Qed.

End MorePaths.

(** ** Replies and what they leave behind *)

Lemma only_reply_is l r e :
  Forall (fun x => is_reply x = true -> x = r) l ->
  In e l -> is_reply e = true -> e = r.
Proof.
  intros Hall Hin Hr. rewrite Forall_forall in Hall. now apply Hall.
Qed.

Lemma notifications_are_no_reply mid r :
  Forall (fun e => is_notification e = true) mid ->
  Forall (fun x => is_reply x = true -> x = r) mid.
Proof.
  intros Hmid. eapply Forall_impl; [|exact Hmid].
  intros e He Hr. destruct e; discriminate.
Qed.

(** X1: [getProfile] changes nothing.  It answers 404 exactly when no stored
    account has the caller's id, and otherwise answers the stored
    account, deactivated or not, with every field but the password. *)
Theorem getProfile_answers_the_stored_account (req : Request) (w : World) :
  run (getProfile req) w = w /\
  (In (EvRespond 404 (JMessage "User not found")) (trace (getProfile req) w)
   <-> lookup (req_user_id req) (users w) = None) /\
  (forall p,
      In (EvRespond 200 (JUser p)) (trace (getProfile req) w) <->
      exists u, lookup (req_user_id req) (users w) = Some u /\
                p = mkPublic (_id u) (name u) (email u) (role u)
                             (emailVerified u) (lastLoginAt u) (isDeleted u)
                             (profileUpdates u)).
Proof.
  unfold run, trace. rewrite getProfile_runs. cbn [fst snd].
  split; [reflexivity|].
  destruct (lookup (req_user_id req) (users w)) as [u|]; split.
  - split; [|discriminate]. intros [Heq|[]]. discriminate.
  - intros p. split.
    + intros [Heq|[]]. inversion Heq. now exists u.
    + intros [u0 [Hu0 ->]]. inversion Hu0. left. reflexivity.
  - split; [reflexivity|]. intros _. now left.
  - intros p. split.
    + intros [Heq|[]]. discriminate.
    + intros [u0 [Hu0 _]]. discriminate.
Qed.

(** X2: a request that failed validation is answered 400 with exactly the
    validation errors by [updateProfile] and by [changePassword], before
    any account is looked up: nothing else happens and the world is
    untouched, whoever the caller is. *)
Theorem validation_errors_are_answered_first
    `{Externals} (req : Request) (w : World) :
  validation req <> [] ->
  updateProfile req w =
    (Normal tt, w, [EvRespond 400 (JErrors (validation req))]) /\
  changePassword req w =
    (Normal tt, w, [EvRespond 400 (JErrors (validation req))]).
Proof.
  intros Hv. destruct (validation req) as [|e l] eqn:E; [congruence|].
  now apply validation_gate.
Qed.

Lemma validation_errors_are_answered_first_witness :
  trace (updateProfile (H := Sample.externals)
           (mkRequest 7 (Some "A") None None None ["name: Invalid value"]))
        Sample.w0 =
  [EvRespond 400 (JErrors ["name: Invalid value"])].
Proof.
  unfold trace.
  rewrite (proj1 (validation_errors_are_answered_first
                    (H := Sample.externals)
                    (mkRequest 7 (Some "A") None None None
                               ["name: Invalid value"])
                    Sample.w0 ltac:(discriminate))).
  reflexivity.
Defined.

(** X3: when [softDeleteProfile] replies with anything other than its
    success response (user not found, already deactivated), the world is
    the one it started in and the reply is its only effect. *)
Theorem softDeleteProfile_error_is_atomic
    (req : Request) (w : World) (e : Event) :
  In e (trace (softDeleteProfile req) w) ->
  is_reply e = true ->
  e <> account_deactivated ->
  run (softDeleteProfile req) w = w /\
  trace (softDeleteProfile req) w = [e].
Proof.
  intros Hin Hreply Hne. unfold trace, run in *.
  destruct (softDeleteProfile_cases req w)
    as [[e0 [Hrun _]] | [u [_ [_ Hrun]]]].
  - rewrite Hrun in *. cbn in *.
    apply in_singleton_reply in Hin. now subst e0.
  - cbv zeta in Hrun. destruct Hrun as [html_ [text_ Hrun]].
    rewrite Hrun in Hin. cbn [snd] in Hin. exfalso. apply Hne.
    apply (reply_in_run _ _ _ _ Hin Hreply).
    + repeat (constructor; [reflexivity|]). constructor.
    + apply sendEmail_notifies.
Qed.

Lemma softDeleteProfile_error_is_atomic_witness :
  run (softDeleteProfile Sample.unknown_caller) Sample.w0 = Sample.w0 /\
  trace (softDeleteProfile Sample.unknown_caller) Sample.w0 =
  [EvRespond 404 (JMessage "User not found")].
Proof.
  apply (softDeleteProfile_error_is_atomic Sample.unknown_caller Sample.w0
           (EvRespond 404 (JMessage "User not found"))).
  - vm_compute. left. reflexivity.
  - reflexivity.
  - discriminate.
Defined.

(** X4: when [updateProfile] sends a response other than its success
    response (the validation errors of line 23, "User not found" of line
    27, "Email already in use" of line 40), both collections are as
    before and the response is its only effect: no name was saved, no
    token created, no mail attempted.  The statement is about the
    responses the handler sends itself, all of them before line 51; an
    error handed to [next] is not one of them. *)
Theorem updateProfile_error_is_atomic
    `{Externals} (req : Request) (w : World) (code : Z) (body : Json) :
  In (EvRespond code body) (trace (updateProfile req) w) ->
  EvRespond code body <> profile_updated ->
  users (run (updateProfile req) w) = users w /\
  tokens (run (updateProfile req) w) = tokens w /\
  trace (updateProfile req) w = [EvRespond code body].
Proof.
  intros Hin Hne.
  assert (Hreply : is_reply (EvRespond code body) = true) by reflexivity.
  revert Hin Hreply Hne. generalize (EvRespond code body). intros e.
  intros Hin Hreply Hne. unfold trace, run in *.
  destruct (updateProfile_cases req w)
    as [[e0 [w' [Hrun [_ [_ Hw']]]]]
       | [[u [_ [_ [_ Hrun]]]] | [u [_ [_ [_ [_ Hrun]]]]]]];
    cbv zeta in Hrun; rewrite Hrun in *; cbn [fst snd] in *.
  - apply in_singleton_reply in Hin. subst e0.
    destruct Hw' as [-> | ->]; repeat split.
  - exfalso. apply Hne.
    destruct Hin as [<-|[<-|[]]]; [discriminate | reflexivity].
  - exfalso. apply Hne.
    eapply only_reply_is; [|exact Hin|exact Hreply].
    apply Forall_app. split.
    { constructor; [discriminate | constructor]. }
    apply Forall_app. split.
    { apply notifications_are_no_reply, sendEmail_notifies. }
    constructor; [discriminate|]. constructor; [reflexivity | constructor].
Qed.

Lemma updateProfile_error_is_atomic_witness :
  users (run (updateProfile (H := Sample.externals) Sample.take_bobs_email)
             Sample.w0) = users Sample.w0 /\
  tokens (run (updateProfile (H := Sample.externals) Sample.take_bobs_email)
              Sample.w0) = tokens Sample.w0 /\
  trace (updateProfile (H := Sample.externals) Sample.take_bobs_email)
        Sample.w0 = [email_in_use].
Proof.
  apply (updateProfile_error_is_atomic (H := Sample.externals)
           Sample.take_bobs_email Sample.w0
           400%Z (JMessage "Email already in use")).
  - vm_compute. left. reflexivity.
  - discriminate.
Defined.

(** ** One call after another *)

Section Sequel.
Context `{Externals}.

Lemma softDeleteProfile_leaves req w :
  In account_deactivated (trace (softDeleteProfile req) w) ->
  exists u,
    lookup (req_user_id req) (users w) = Some u /\
    isDeleted u = false /\
    lookup (req_user_id req) (users (run (softDeleteProfile req) w)) =
    Some (deactivated_doc u).
Proof.
  intros Hok. unfold trace, run in *.
  destruct (softDeleteProfile_cases req w)
    as [[e [Hrun [_ Hne]]] | [u [Hu [Hd Hrun]]]].
  - rewrite Hrun in Hok. cbn in Hok.
    apply in_singleton_reply in Hok. congruence.
  - cbv zeta in Hrun. destruct Hrun as [html_ [text_ Hrun]].
    rewrite Hrun. cbn [fst snd]. rewrite users_saved_then_revoked.
    exists u. split; [exact Hu|]. split; [exact Hd|].
    pose proof (lookup_id _ _ _ Hu) as Hid. rewrite <- Hid in *.
    apply (lookup_replace_same (deactivated_doc u) (users w) u Hu).
Qed.

Lemma changePassword_leaves req w :
  In password_updated (trace (changePassword req) w) ->
  exists u np,
    lookup (req_user_id req) (users w) = Some u /\
    isDeleted u = false /\
    body_newPassword req = Some np /\
    lookup (req_user_id req) (users (run (changePassword req) w)) =
    Some (password_changed_doc u np (clock w (ticks w))).
Proof.
  intros Hok. unfold trace, run in *.
  destruct (changePassword_cases req w)
    as [[e [Hrun [_ Hne]]] | [u [cp [np [_ [Hu [Hd [_ [_ [Hnp Hrun]]]]]]]]]].
  - rewrite Hrun in Hok. cbn in Hok.
    apply in_singleton_reply in Hok. congruence.
  - cbv zeta in Hrun. destruct Hrun as [html_ [text_ Hrun]].
    rewrite Hrun. cbn [fst snd]. rewrite users_saved_then_revoked.
    exists u, np. repeat (split; [assumption|]).
    pose proof (lookup_id _ _ _ Hu) as Hid. rewrite <- Hid in *.
    apply (lookup_replace_same
             (password_changed_doc u np (clock w (ticks w)))
             (users (tick w)) u Hu).
Qed.



Lemma changed_truthy v current : changed v current = true -> truthy v = true.
Proof. unfold changed. now destruct (truthy v). Qed.


End Sequel.

(** X5: deactivation sticks: once [softDeleteProfile] has answered "Account
    deactivated", a second [softDeleteProfile] for the same account is
    answered 400 "Account already deactivated" and changes nothing. *)
Theorem softDeleteProfile_twice_is_refused
    (req again : Request) (w : World) :
  In account_deactivated (trace (softDeleteProfile req) w) ->
  req_user_id again = req_user_id req ->
  softDeleteProfile again (run (softDeleteProfile req) w) =
  (Normal tt, run (softDeleteProfile req) w,
   [EvRespond 400 (JMessage "Account already deactivated")]).
Proof.
  intros Hok Hsame.
  destruct (softDeleteProfile_leaves req w Hok) as [u [_ [_ Hdoc]]].
  rewrite <- Hsame in Hdoc.
  now apply (softDeleteProfile_already again _ (deactivated_doc u)).
Qed.

Lemma softDeleteProfile_twice_is_refused_witness :
  softDeleteProfile Sample.delete_account
    (run (softDeleteProfile Sample.delete_account) Sample.w0) =
  (Normal tt, run (softDeleteProfile Sample.delete_account) Sample.w0,
   [EvRespond 400 (JMessage "Account already deactivated")]).
Proof.
  apply (softDeleteProfile_twice_is_refused
           Sample.delete_account Sample.delete_account Sample.w0).
  - vm_compute. repeat (first [left; reflexivity | right]).
  - reflexivity.
Defined.

(** X6: after [softDeleteProfile] has answered "Account deactivated", every
    validated [changePassword] for that account is answered 403 "Account
    deactivated", whatever passwords it carries, and changes nothing. *)
Theorem changePassword_after_deactivation_is_refused
    `{Externals} (req later : Request) (w : World) :
  In account_deactivated (trace (softDeleteProfile req) w) ->
  req_user_id later = req_user_id req ->
  validation later = [] ->
  changePassword later (run (softDeleteProfile req) w) =
  (Normal tt, run (softDeleteProfile req) w,
   [EvRespond 403 (JMessage "Account deactivated")]).
Proof.
  intros Hok Hsame Hv.
  destruct (softDeleteProfile_leaves req w Hok) as [u [_ [_ Hdoc]]].
  rewrite <- Hsame in Hdoc.
  now apply (changePassword_deactivated later _ (deactivated_doc u)).
Qed.

Lemma changePassword_after_deactivation_is_refused_witness :
  changePassword (H := Sample.externals) Sample.change_password
    (run (softDeleteProfile Sample.delete_account) Sample.w0) =
  (Normal tt, run (softDeleteProfile Sample.delete_account) Sample.w0,
   [EvRespond 403 (JMessage "Account deactivated")]).
Proof.
  apply (changePassword_after_deactivation_is_refused
           (H := Sample.externals) Sample.delete_account
           Sample.change_password Sample.w0).
  - vm_compute. repeat (first [left; reflexivity | right]).
  - reflexivity.
  - reflexivity.
Defined.

(** X7: after a successful [changePassword] the stored hash is the bcrypt
    hash of the new password with 12 rounds, and it is what the next
    [changePassword] compares against: a later validated request that
    carries a new password succeeds when bcrypt accepts its current
    password against that hash, and is answered 400 "Current password is
    incorrect", changing nothing, when bcrypt does not. *)
Theorem changePassword_is_checked_against_the_new_hash
    `{Externals} (req later : Request) (w : World) (np cp np' : string) :
  In password_updated (trace (changePassword req) w) ->
  body_newPassword req = Some np ->
  req_user_id later = req_user_id req ->
  validation later = [] ->
  body_currentPassword later = Some cp ->
  body_newPassword later = Some np' ->
  let w' := run (changePassword req) w in
  (exists u', lookup (req_user_id req) (users w') = Some u' /\
              password u' = bcrypt_hash np 12) /\
  (bcrypt_compare cp (bcrypt_hash np 12) = true ->
   In password_updated (trace (changePassword later) w')) /\
  (bcrypt_compare cp (bcrypt_hash np 12) = false ->
   changePassword later w' =
   (Normal tt, w',
    [EvRespond 400 (JMessage "Current password is incorrect")])).
Proof.
  intros Hok Hnp Hsame Hv Hcp Hnp'. cbv zeta.
  destruct (changePassword_leaves req w Hok)
    as [u [np0 [_ [Hd [Hnp0 Hdoc]]]]].
  assert (np0 = np) by congruence. subst np0.
  set (doc := password_changed_doc u np (clock w (ticks w))) in *.
  split; [exists doc; split; [exact Hdoc | reflexivity]|].
  rewrite <- Hsame in Hdoc.
  split; intros Hm.
  - destruct (changePassword_runs later _ doc cp np' Hv Hdoc Hd Hcp Hm Hnp')
      as [html_ [text_ Hrun]].
    unfold trace. rewrite Hrun. cbn [snd].
    apply in_or_app. right. apply in_or_app. right. now left.
  - now apply (changePassword_mismatch later _ doc cp).
Qed.

Lemma changePassword_is_checked_against_the_new_hash_witness :
  In password_updated
     (trace (changePassword (H := Sample.externals)
               Sample.change_password_again)
            (run (changePassword (H := Sample.externals)
                    Sample.change_password) Sample.w0)) /\
  changePassword (H := Sample.externals) Sample.change_password
    (run (changePassword (H := Sample.externals) Sample.change_password)
         Sample.w0) =
  (Normal tt,
   run (changePassword (H := Sample.externals) Sample.change_password)
       Sample.w0,
   [EvRespond 400 (JMessage "Current password is incorrect")]).
Proof.
  assert (Hok : In password_updated
            (trace (changePassword (H := Sample.externals)
                      Sample.change_password) Sample.w0))
    by (vm_compute; repeat (first [left; reflexivity | right])).
  split.
  - apply (proj1 (proj2 (changePassword_is_checked_against_the_new_hash
             (H := Sample.externals) Sample.change_password
             Sample.change_password_again Sample.w0
             "NewPass456!" "NewPass456!" "ThirdPass789!"
             Hok eq_refl eq_refl eq_refl eq_refl eq_refl))).
    reflexivity.
  - apply (proj2 (proj2 (changePassword_is_checked_against_the_new_hash
             (H := Sample.externals) Sample.change_password
             Sample.change_password Sample.w0
             "NewPass456!" "OldPass123!" "NewPass456!"
             Hok eq_refl eq_refl eq_refl eq_refl eq_refl))).
    reflexivity.
Defined.

(** ** Updating and reading back *)

(** X8: an [updateProfile] that answered "Profile updated", for a stored
    account, with no email in the body or the email the account already
    has, has saved and answered and done nothing else: no token is
    created and no mail attempted, and email, [emailVerified] and
    password stay as stored.  If the name is absent or unchanged too,
    the document saved is the stored one; otherwise its audit log is the
    stored one followed by one entry for the name, with the stored name
    as old value, the name of the body as new value and the time read on
    line 29, and nothing but the name and the audit log differs from the
    stored document. *)
Theorem updateProfile_without_email_change
    `{Externals} (req : Request) (w : World) (u : UserDoc) :
  In profile_updated (trace (updateProfile req) w) ->
  lookup (req_user_id req) (users w) = Some u ->
  changed (body_email req) (email u) = false ->
  exists doc,
    trace (updateProfile req) w = [EvUserSave doc; profile_updated] /\
    tokens (run (updateProfile req) w) = tokens w /\
    lookup (req_user_id req) (users (run (updateProfile req) w)) = Some doc /\
    email doc = email u /\ emailVerified doc = emailVerified u /\
    password doc = password u /\
    (changed (body_name req) (name u) = false -> doc = u) /\
    (changed (body_name req) (name u) = true ->
     profileUpdates doc =
       profileUpdates u ++
       [mkProfileUpdate "name" (name u) (string_of (body_name req))
                        (clock w (ticks w))] /\
     doc = set_profileUpdates (profileUpdates doc) (set_name (name doc) u)).
Proof.
  intros Hok Hu He.
  assert (Hv : validation req = []).
  { destruct (validation req) as [|e l] eqn:E; [reflexivity|].
    unfold trace in Hok.
    rewrite (proj1 (validation_gate req w e l E)) in Hok.
    cbn in Hok. destruct Hok as [Hok|[]]. discriminate. }
  clear Hok. unfold trace, run.
  rewrite (updateProfile_keeps_email req w u Hv Hu He). cbn [fst snd].
  change (users (with_users ?us _)) with us.
  pose proof (lookup_id _ _ _ Hu) as Hid.
  unfold renamed.
  destruct (changed (body_name req) (name u)); cbn [fst snd audited];
    eexists; (split; [reflexivity|]); (split; [reflexivity|]).
  - split.
    { rewrite <- Hid in *.
      match goal with
      | |- lookup _ (replace_user ?d _) = _ =>
          apply (lookup_replace_same d (users w) u Hu)
      end. }
    do 3 (split; [reflexivity|]). split; [discriminate|].
    intros _. split; reflexivity.
  - split.
    { rewrite <- Hid in *. apply (lookup_replace_same u (users w) u Hu). }
    do 3 (split; [reflexivity|]). split; [reflexivity | discriminate].
Qed.

Lemma updateProfile_without_email_change_witness :
  exists doc,
    trace (updateProfile (H := Sample.externals) Sample.rename) Sample.w0 =
    [EvUserSave doc; profile_updated] /\
    tokens (run (updateProfile (H := Sample.externals) Sample.rename)
                Sample.w0) = tokens Sample.w0 /\
    profileUpdates doc =
      profileUpdates Sample.alice ++
      [mkProfileUpdate "name" (name Sample.alice)
         (string_of (body_name Sample.rename))
         (clock Sample.w0 (ticks Sample.w0))] /\
    emailVerified doc = true.
Proof.
  assert (Hok : In profile_updated
            (trace (updateProfile (H := Sample.externals) Sample.rename)
                   Sample.w0))
    by (vm_compute; repeat (first [left; reflexivity | right])).
  destruct (updateProfile_without_email_change (H := Sample.externals)
              Sample.rename Sample.w0 Sample.alice Hok eq_refl eq_refl)
    as [doc [Htrace [Htokens [_ [_ [Hverified [_ [_ Hdoc]]]]]]]].
  exists doc. split; [exact Htrace|]. split; [exact Htokens|].
  split; [exact (proj1 (Hdoc eq_refl)) | exact Hverified].
Defined.





(** ** What happens to the token collection *)

Lemma matches_refresh_inv id t :
  matches (refresh_sessions_of id) t = true ->
  user t = id /\ type t = "refresh".
Proof.
  unfold matches, refresh_sessions_of. cbn [q_user q_type]. intros Hm.
  apply andb_prop in Hm. destruct Hm as [Hu Ht].
  apply Nat.eqb_eq in Hu. apply String.eqb_eq in Ht. now split.
Qed.

Lemma matches_owner_inv id t :
  matches (tokens_of id) t = true -> user t = id.
Proof.
  unfold matches, tokens_of. cbn [q_user q_type]. intros Hm.
  apply andb_prop in Hm. destruct Hm as [Hu _].
  now apply Nat.eqb_eq in Hu.
Qed.

Lemma update_many_only (P : TokenDoc -> Prop) q ts :
  (forall t, matches q t = true -> P t) ->
  Forall2 (fun t t' => t' = t \/ (t' = apply_update revoke t /\ P t))
          ts (update_many q revoke ts).
Proof.
  intros HP. induction ts as [|t ts IH]; cbn; constructor; [|exact IH].
  destruct (matches q t) eqn:Hm; [right | left; reflexivity].
  split; [reflexivity | now apply HP].
Qed.

Lemma Forall2_same {A} (R : A -> A -> Prop) (l : list A) :
  (forall x, R x x) -> Forall2 R l l.
Proof. intros Hr. induction l; constructor; auto. Qed.

Section TokenSteps.
Context `{Externals}.

Lemma changePassword_tokens req w :
  Forall2 (fun t t' =>
             t' = t \/
             (t' = apply_update revoke t /\
              user t = req_user_id req /\ type t = "refresh"))
          (tokens w) (tokens (run (changePassword req) w)).
Proof.
  unfold run.
  destruct (changePassword_cases req w)
    as [[e [Hrun _]] | [u [cp [np [_ [Hu [_ [_ [_ [_ Hrun]]]]]]]]]].
  - rewrite Hrun. cbn [fst snd]. apply Forall2_same. now left.
  - cbv zeta in Hrun. destruct Hrun as [html_ [text_ Hrun]].
    rewrite Hrun. cbn [fst snd]. rewrite tokens_saved_then_revoked.
    apply lookup_id in Hu. rewrite Hu.
    apply (update_many_only
             (fun t => user t = req_user_id req /\ type t = "refresh")).
    apply matches_refresh_inv.
Qed.

Lemma softDeleteProfile_tokens req w :
  Forall2 (fun t t' =>
             t' = t \/
             (t' = apply_update revoke t /\ user t = req_user_id req))
          (tokens w) (tokens (run (softDeleteProfile req) w)).
Proof.
  unfold run.
  destruct (softDeleteProfile_cases req w)
    as [[e [Hrun _]] | [u [Hu [_ Hrun]]]].
  - rewrite Hrun. cbn [fst snd]. apply Forall2_same. now left.
  - cbv zeta in Hrun. destruct Hrun as [html_ [text_ Hrun]].
    rewrite Hrun. cbn [fst snd]. rewrite tokens_saved_then_revoked.
    apply lookup_id in Hu. rewrite Hu.
    apply (update_many_only (fun t => user t = req_user_id req)).
    apply matches_owner_inv.
Qed.

Lemma updateProfile_tokens req w :
  exists added,
    tokens (run (updateProfile req) w) = tokens w ++ added /\
    Forall (fun t => user t = req_user_id req /\ type t = "verify" /\
                     revoked t = false /\ used t = false) added.
Proof.
  unfold run.
  destruct (updateProfile_cases req w)
    as [[e [w' [Hrun [_ [_ Hw']]]]]
       | [[u [_ [_ [_ Hrun]]]] | [u [_ [Hu [_ [_ Hrun]]]]]]];
    cbv zeta in Hrun; rewrite Hrun; cbn [fst snd].
  - exists []. rewrite app_nil_r.
    split; [now destruct Hw' as [-> | ->] | constructor].
  - exists []. rewrite app_nil_r. split; [reflexivity | constructor].
  - eexists. split; [reflexivity|].
    constructor; [|constructor]. apply lookup_id in Hu.
    now repeat split.
Qed.

End TokenSteps.

(** X11: the three writing routes and the token collection.  [changePassword]
    keeps every record in place and alters only refresh records of the
    caller, and those only by setting [revoked]; [softDeleteProfile] does
    the same to all records of the caller; [updateProfile] alters no
    record and at most appends verify records of the caller.  Records of
    other accounts are never touched, and no record is ever removed. *)
Theorem routes_touch_only_the_callers_tokens
    `{Externals} (req : Request) (w : World) :
  Forall2 (fun t t' =>
             t' = t \/
             (t' = apply_update revoke t /\
              user t = req_user_id req /\ type t = "refresh"))
          (tokens w) (tokens (run (changePassword req) w)) /\
  Forall2 (fun t t' =>
             t' = t \/
             (t' = apply_update revoke t /\ user t = req_user_id req))
          (tokens w) (tokens (run (softDeleteProfile req) w)) /\
  exists added,
    tokens (run (updateProfile req) w) = tokens w ++ added /\
    Forall (fun t => user t = req_user_id req /\ type t = "verify" /\
                     revoked t = false /\ used t = false) added.
Proof.
  split; [|split].
  - apply changePassword_tokens.
  - apply softDeleteProfile_tokens.
  - apply updateProfile_tokens.
Qed.

Section TokenHistory.
Context `{Externals}.

Lemma token_kept_refl t : token_kept t t.
Proof. now left. Qed.

Lemma token_kept_trans t1 t2 t3 :
  token_kept t1 t2 -> token_kept t2 t3 -> token_kept t1 t3.
Proof.
  intros [-> | ->] [-> | ->]; try (now left); now right.
Qed.

Lemma Forall2_trans_kept l1 l2 l3 :
  Forall2 token_kept l1 l2 -> Forall2 token_kept l2 l3 ->
  Forall2 token_kept l1 l3.
Proof.
  intros H12. revert l3. induction H12 as [|x y l1 l2 Hxy _ IH];
    intros l3 H23; inversion H23; subst; constructor.
  - eapply token_kept_trans; eassumption.
  - now apply IH.
Qed.

Lemma tokens_evolve_refl ts : tokens_evolve ts ts.
Proof.
  exists ts, []. split; [now rewrite app_nil_r|].
  apply Forall2_same, token_kept_refl.
Qed.

Lemma tokens_evolve_trans ts1 ts2 ts3 :
  tokens_evolve ts1 ts2 -> tokens_evolve ts2 ts3 -> tokens_evolve ts1 ts3.
Proof.
  intros [k1 [a1 [-> H1]]] [k2 [a2 [-> H2]]].
  apply Forall2_app_inv_l in H2.
  destruct H2 as [k2a [k2b [Hk [_ ->]]]].
  exists k2a, (k2b ++ a2). split; [now rewrite app_assoc|].
  eapply Forall2_trans_kept; eassumption.
Qed.

Lemma weaken_kept (P : TokenDoc -> Prop) ts ts' :
  Forall2 (fun t t' => t' = t \/ (t' = apply_update revoke t /\ P t))
          ts ts' ->
  Forall2 token_kept ts ts'.
Proof.
  intros Hall. eapply Forall2_impl; [|exact Hall].
  intros t t' [-> | [-> _]]; [now left | now right].
Qed.

Lemma exec_tokens_evolve op w :
  through_this_code op = true ->
  tokens_evolve (tokens w) (tokens (run (exec op) w)).
Proof.
  intros Hop.
  destruct op as [req|req|req|req|a b c d|us ts]; cbn [exec];
    try discriminate.
  - unfold run. rewrite getProfile_runs. apply tokens_evolve_refl.
  - destruct (updateProfile_tokens req w) as [added [-> _]].
    exists (tokens w), added. split; [reflexivity|].
    apply Forall2_same, token_kept_refl.
  - exists (tokens (run (changePassword req) w)), [].
    split; [now rewrite app_nil_r|].
    eapply weaken_kept. apply changePassword_tokens.
  - exists (tokens (run (softDeleteProfile req) w)), [].
    split; [now rewrite app_nil_r|].
    eapply weaken_kept. apply softDeleteProfile_tokens.
  - unfold run. rewrite sendEmail_total. apply tokens_evolve_refl.
Qed.

Lemma serve_tokens_evolve ops w :
  Forall (fun op => through_this_code op = true) ops ->
  tokens_evolve (tokens w) (tokens (fst (serve ops w))).
Proof.
  intros Hops. revert w.
  induction Hops as [|op rest Hop _ IH]; intros w.
  - apply tokens_evolve_refl.
  - cbn [serve]. pose proof (exec_tokens_evolve op w Hop) as Hstep.
    unfold run in Hstep. destruct (exec op w) as [[c w1] t1].
    cbn [fst snd] in Hstep. specialize (IH w1).
    destruct (serve rest w1) as [w2 t2]. cbn [fst snd] in *.
    eapply tokens_evolve_trans; eassumption.
Qed.

End TokenHistory.

(** X12: over any sequence of calls served by this code, no token record is
    removed or moved: every record present at the start is still at its
    place, with its owner, identifier, hash, type, expiry and [used] flag
    as they were, and revoked if it was revoked; whatever is new comes
    after. *)
Theorem tokens_are_never_removed_or_unrevoked
    `{Externals} (ops : list Op) (w : World) :
  Forall (fun op => through_this_code op = true) ops ->
  exists kept added,
    tokens (fst (serve ops w)) = kept ++ added /\
    Forall2 (fun t t' =>
               user t' = user t /\ tokenId t' = tokenId t /\
               tokenHash t' = tokenHash t /\ type t' = type t /\
               expiresAt t' = expiresAt t /\ used t' = used t /\
               (revoked t = true -> revoked t' = true))
            (tokens w) kept.
Proof.
  intros Hops.
  destruct (serve_tokens_evolve ops w Hops) as [kept [added [Heq Hkept]]].
  exists kept, added. split; [exact Heq|].
  eapply Forall2_impl; [|exact Hkept].
  intros t t' [-> | ->]; cbn; repeat split; auto.
Qed.

Lemma tokens_are_never_removed_or_unrevoked_witness :
  exists kept added,
    tokens (fst (serve (H := Sample.externals)
                   [OpChangePassword Sample.change_password;
                    OpUpdateProfile Sample.change_email;
                    OpSoftDeleteProfile Sample.delete_account]
                   Sample.w0)) = kept ++ added /\
    Forall2 (fun t t' =>
               user t' = user t /\ tokenId t' = tokenId t /\
               tokenHash t' = tokenHash t /\ type t' = type t /\
               expiresAt t' = expiresAt t /\ used t' = used t /\
               (revoked t = true -> revoked t' = true))
            (tokens Sample.w0) kept.
Proof.
  apply (tokens_are_never_removed_or_unrevoked (H := Sample.externals)).
  repeat (constructor; [reflexivity|]). constructor.
Defined.

(** ** What happens to the accounts *)

Lemma replace_user_ids doc us : map _id (replace_user doc us) = map _id us.
Proof.
  unfold replace_user. induction us as [|x xs IH]; [reflexivity|].
  cbn. rewrite IH. destruct (_id x =? _id doc)%nat eqn:E; [|reflexivity].
  apply Nat.eqb_eq in E. now rewrite E.
Qed.

Lemma replace_user_absent doc us :
  ~ In (_id doc) (map _id us) -> replace_user doc us = us.
Proof.
  unfold replace_user. induction us as [|x xs IH]; intros Hnot;
    [reflexivity|].
  cbn in *. destruct (_id x =? _id doc)%nat eqn:E.
  - apply Nat.eqb_eq in E. exfalso. apply Hnot. now left.
  - f_equal. apply IH. intros Hin. apply Hnot. now right.
Qed.

Lemma replace_user_emails doc us e :
  In e (map email (replace_user doc us)) ->
  e = email doc \/ In e (map email us).
Proof.
  unfold replace_user. induction us as [|x xs IH]; cbn; [tauto|].
  destruct (_id x =? _id doc)%nat; cbn; intros [<-|Hin]; auto;
    destruct (IH Hin); auto.
Qed.

Lemma lookup_in id us u : lookup id us = Some u -> In u us.
Proof. unfold lookup. intros Hf. now apply find_some in Hf. Qed.

Lemma lookup_email_absent e us :
  lookup_email e us = None -> ~ In e (map email us).
Proof.
  unfold lookup_email. intros Hnone Hin.
  apply in_map_iff in Hin. destruct Hin as [x [<- Hx]].
  pose proof (find_none _ _ Hnone x Hx) as Hneq. cbn in Hneq.
  now rewrite String.eqb_refl in Hneq.
Qed.

Lemma replace_user_unique doc us u0 :
  lookup (_id doc) us = Some u0 ->
  email doc = email u0 \/ ~ In (email doc) (map email us) ->
  unique_accounts us -> unique_accounts (replace_user doc us).
Proof.
  intros Hu0 Hmail [Hids Hmails]. split; [now rewrite replace_user_ids|].
  revert Hu0 Hmail Hids Hmails. unfold lookup.
  induction us as [|x xs IH]; [discriminate|].
  cbn [find map]. intros Hu0 Hmail Hids Hmails.
  inversion Hids as [|? ? Hxid Hxsids]; subst.
  inversion Hmails as [|? ? Hxmail Hxsmails]; subst.
  unfold replace_user. cbn [map]. fold (replace_user doc xs).
  destruct (_id x =? _id doc)%nat eqn:E.
  - inversion Hu0; subst u0. apply Nat.eqb_eq in E.
    rewrite replace_user_absent by now rewrite <- E.
    cbn [map]. constructor; [|exact Hxsmails].
    destruct Hmail as [-> | Hnot]; [exact Hxmail|].
    intros Hin. apply Hnot. now right.
  - cbn [map]. constructor.
    + intros Hin. apply replace_user_emails in Hin.
      destruct Hin as [Heq | Hin]; [|now apply Hxmail].
      destruct Hmail as [Hsame | Hnot].
      * apply Hxmail. rewrite Heq, Hsame.
        apply in_map. apply find_some in Hu0. tauto.
      * apply Hnot. left. now symmetry.
    + apply IH; try assumption.
      destruct Hmail as [Hsame | Hnot]; [now left | right].
      intros Hin. apply Hnot. now right.
Qed.

Lemma lookup_after_save_rel (R : UserDoc -> UserDoc -> Prop)
    doc us u0 id u :
  lookup (_id doc) us = Some u0 ->
  R u0 doc ->
  (forall x, R x x) ->
  lookup id us = Some u ->
  exists u', lookup id (replace_user doc us) = Some u' /\ R u u'.
Proof.
  intros Hdoc Hrel Hrefl Hu.
  destruct (Nat.eq_dec (_id doc) id) as [Heq|Hneq].
  - subst id. assert (u0 = u) by congruence. subst u0.
    exists doc. split; [|exact Hrel].
    now apply (lookup_replace_same doc us u).
  - exists u. split; [|apply Hrefl]. now rewrite lookup_replace_other.
Qed.

Lemma account_kept_refl u : account_kept u u.
Proof. repeat split; auto. Qed.

Lemma account_kept_trans u1 u2 u3 :
  account_kept u1 u2 -> account_kept u2 u3 -> account_kept u1 u3.
Proof.
  intros [Hi1 [Hr1 [Hl1 Hd1]]] [Hi2 [Hr2 [Hl2 Hd2]]].
  repeat split; try congruence. auto.
Qed.

Section AccountSteps.
Context `{Externals}.

(** One call either leaves the accounts as they are, or writes one
    document over the caller's stored one. *)
Lemma exec_users_step op w :
  through_this_code op = true ->
  users (run (exec op) w) = users w \/
  exists u0 doc,
    caller op = Some (_id doc) /\
    lookup (_id doc) (users w) = Some u0 /\
    users (run (exec op) w) = replace_user doc (users w) /\
    account_kept u0 doc /\
    (email doc = email u0 \/ lookup_email (email doc) (users w) = None) /\
    (match op with
     | OpChangePassword _ => True
     | _ => password doc = password u0
     end).
Proof.
  intros Hop. unfold run.
  destruct op as [req|req|req|req|a b c d|us ts]; cbn [exec caller];
    try discriminate.
  - left. now rewrite getProfile_runs.
  - destruct (updateProfile_cases req w)
      as [[e [w' [Hrun [_ [_ Hw']]]]]
         | [[u [_ [Hu [_ Hrun]]]] | [u [_ [Hu [_ [Ho Hrun]]]]]]];
      cbv zeta in Hrun; rewrite Hrun; cbn [fst snd].
    + left. now destruct Hw' as [-> | ->].
    + right. pose proof (lookup_id _ _ _ Hu) as Hid.
      exists u. eexists.
      split; [|split; [|split; [reflexivity|]]].
      * unfold renamed. destruct (changed (body_name req) (name u));
          cbn; now rewrite Hid.
      * unfold renamed. destruct (changed (body_name req) (name u));
          cbn; now rewrite Hid.
      * unfold renamed. destruct (changed (body_name req) (name u));
          cbn; repeat split; auto.
    + right. pose proof (lookup_id _ _ _ Hu) as Hid.
      exists u. eexists.
      split; [|split; [|split; [reflexivity|]]].
      * unfold renamed. destruct (changed (body_name req) (name u));
          cbn; now rewrite Hid.
      * unfold renamed. destruct (changed (body_name req) (name u));
          cbn; now rewrite Hid.
      * unfold renamed. destruct (changed (body_name req) (name u));
          cbn; repeat split; auto.
  - destruct (changePassword_cases req w)
      as [[e [Hrun _]] | [u [cp [np [_ [Hu [_ [_ [_ [_ Hrun]]]]]]]]]].
    + left. now rewrite Hrun.
    + cbv zeta in Hrun. destruct Hrun as [html_ [text_ Hrun]].
      rewrite Hrun. cbn [fst snd]. rewrite users_saved_then_revoked.
      right. pose proof (lookup_id _ _ _ Hu) as Hid.
      exists u. eexists.
      split; [|split; [|split; [reflexivity|]]].
      * cbn. now rewrite Hid.
      * cbn. now rewrite Hid.
      * cbn. repeat split; auto.
  - destruct (softDeleteProfile_cases req w)
      as [[e [Hrun _]] | [u [Hu [_ Hrun]]]].
    + left. now rewrite Hrun.
    + cbv zeta in Hrun. destruct Hrun as [html_ [text_ Hrun]].
      rewrite Hrun. cbn [fst snd]. rewrite users_saved_then_revoked.
      right. pose proof (lookup_id _ _ _ Hu) as Hid.
      exists u. eexists.
      split; [|split; [|split; [reflexivity|]]].
      * cbn. now rewrite Hid.
      * cbn. now rewrite Hid.
      * cbn. repeat split; auto.
  - left. now rewrite sendEmail_total.
Qed.

End AccountSteps.

Section AccountHistory.
Context `{Externals}.

Lemma serve_users_invariant (P : Op -> Prop)
    (R : list UserDoc -> list UserDoc -> Prop) :
  (forall us, R us us) ->
  (forall us1 us2 us3, R us1 us2 -> R us2 us3 -> R us1 us3) ->
  (forall op w, P op -> R (users w) (users (run (exec op) w))) ->
  forall ops w, Forall P ops -> R (users w) (users (fst (serve ops w))).
Proof.
  intros Hrefl Htrans Hstep ops w Hops. revert w.
  induction Hops as [|op rest Hop _ IH]; intros w; [apply Hrefl|].
  cbn [serve]. pose proof (Hstep op w Hop) as Hone. unfold run in Hone.
  destruct (exec op w) as [[c w1] t1]. cbn [fst snd] in Hone.
  specialize (IH w1). destruct (serve rest w1) as [w2 t2].
  cbn [fst snd] in *. eapply Htrans; eassumption.
Qed.

End AccountHistory.

(** X13: over any sequence of calls served by this code, every stored account
    stays stored under its [_id] with the same role and the same
    [lastLoginAt], and an account that is deactivated stays deactivated:
    no profile route creates, removes, promotes or restores an account. *)
Theorem accounts_keep_identity_and_role
    `{Externals} (ops : list Op) (w : World) (id : ObjectId) (u : UserDoc) :
  Forall (fun op => through_this_code op = true) ops ->
  lookup id (users w) = Some u ->
  exists u',
    lookup id (users (fst (serve ops w))) = Some u' /\
    _id u' = _id u /\ role u' = role u /\ lastLoginAt u' = lastLoginAt u /\
    (isDeleted u = true -> isDeleted u' = true).
Proof.
  intros Hops Hu.
  refine (serve_users_invariant
            (fun op => through_this_code op = true)
            (fun us us' =>
               forall id u, lookup id us = Some u ->
                            exists u', lookup id us' = Some u' /\
                                       account_kept u u')
            _ _ _ ops w Hops id u Hu).
  - intros us i x Hx. exists x. split; [exact Hx | apply account_kept_refl].
  - intros us1 us2 us3 H12 H23 i x Hx.
    destruct (H12 i x Hx) as [y [Hy Hxy]].
    destruct (H23 i y Hy) as [z [Hz Hyz]].
    exists z. split; [exact Hz|]. eapply account_kept_trans; eassumption.
  - intros op w0 Hop i x Hx.
    destruct (exec_users_step op w0 Hop)
      as [-> | [u0 [doc [_ [Hu0 [-> [Hkept _]]]]]]].
    + exists x. split; [exact Hx | apply account_kept_refl].
    + apply (lookup_after_save_rel account_kept doc (users w0) u0 i x);
        auto using account_kept_refl.
Qed.

Lemma accounts_keep_identity_and_role_witness :
  exists u',
    lookup 1 (users (fst (serve (H := Sample.externals)
                            [OpUpdateProfile Sample.rename_and_change_email;
                             OpSoftDeleteProfile Sample.delete_account;
                             OpChangePassword Sample.change_password]
                            Sample.w0))) = Some u' /\
    _id u' = 1 /\ role u' = Viewer /\ lastLoginAt u' = None /\
    (false = true -> isDeleted u' = true).
Proof.
  apply (accounts_keep_identity_and_role (H := Sample.externals)
           _ Sample.w0 1 Sample.alice).
  - repeat (constructor; [reflexivity|]). constructor.
  - reflexivity.
Defined.

(** X14: an account is changed only by calls made for it: over any sequence of
    calls served by this code none of which acts for the account [id],
    what is stored under [id] stays exactly as it was. *)
Theorem accounts_change_only_through_their_caller
    `{Externals} (ops : list Op) (w : World) (id : ObjectId) :
  Forall (fun op => through_this_code op = true /\ caller op <> Some id)
         ops ->
  lookup id (users (fst (serve ops w))) = lookup id (users w).
Proof.
  intros Hops.
  refine (serve_users_invariant
            (fun op => through_this_code op = true /\ caller op <> Some id)
            (fun us us' => lookup id us' = lookup id us)
            _ _ _ ops w Hops).
  - reflexivity.
  - intros us1 us2 us3 H12 H23. congruence.
  - intros op w0 [Hop Hother].
    destruct (exec_users_step op w0 Hop)
      as [-> | [u0 [doc [Hcaller [_ [-> _]]]]]]; [reflexivity|].
    apply lookup_replace_other. intros Heq. apply Hother. congruence.
Qed.

Lemma accounts_change_only_through_their_caller_witness :
  lookup 2 (users (fst (serve (H := Sample.externals)
                          [OpUpdateProfile Sample.rename_and_change_email;
                           OpSoftDeleteProfile Sample.delete_account]
                          Sample.w0))) =
  lookup 2 (users Sample.w0).
Proof.
  apply (accounts_change_only_through_their_caller (H := Sample.externals)).
  repeat (constructor; [split; [reflexivity | discriminate]|]).
  constructor.
Defined.

(** X15: the stored password hash changes through [changePassword] and
    through nothing else here: over any sequence of the other calls,
    every account keeps the hash it had. *)
Theorem password_changes_only_through_changePassword
    `{Externals} (ops : list Op) (w : World) (id : ObjectId) (u : UserDoc) :
  Forall (fun op => through_this_code op = true /\
                    forall req, op <> OpChangePassword req) ops ->
  lookup id (users w) = Some u ->
  exists u',
    lookup id (users (fst (serve ops w))) = Some u' /\
    password u' = password u.
Proof.
  intros Hops Hu.
  refine (serve_users_invariant
            (fun op => through_this_code op = true /\
                       forall req, op <> OpChangePassword req)
            (fun us us' =>
               forall id u, lookup id us = Some u ->
                            exists u', lookup id us' = Some u' /\
                                       password u' = password u)
            _ _ _ ops w Hops id u Hu).
  - intros us i x Hx. now exists x.
  - intros us1 us2 us3 H12 H23 i x Hx.
    destruct (H12 i x Hx) as [y [Hy Hxy]].
    destruct (H23 i y Hy) as [z [Hz Hyz]].
    exists z. split; [exact Hz | congruence].
  - intros op w0 [Hop Hnot] i x Hx.
    destruct (exec_users_step op w0 Hop)
      as [-> | [u0 [doc [_ [Hu0 [-> [_ [_ Hpw]]]]]]]].
    + now exists x.
    + apply (lookup_after_save_rel
               (fun a b => password b = password a) doc (users w0) u0 i x);
        auto.
      destruct op; try exact Hpw. exfalso. now apply (Hnot req).
Qed.

Lemma password_changes_only_through_changePassword_witness :
  exists u',
    lookup 1 (users (fst (serve (H := Sample.externals)
                            [OpUpdateProfile Sample.rename_and_change_email;
                             OpGetProfile Sample.delete_account;
                             OpSoftDeleteProfile Sample.delete_account]
                            Sample.w0))) = Some u' /\
    password u' = "$2b$12$OldPass123!".
Proof.
  apply (password_changes_only_through_changePassword
           (H := Sample.externals) _ Sample.w0 1 Sample.alice).
  - repeat (constructor; [split; [reflexivity | discriminate]|]).
    constructor.
  - reflexivity.
Defined.

(** X16: the pre-check of [updateProfile] keeps the unique index intact when
    calls do not interleave: if no two stored accounts share an [_id] or
    an email, then after any sequence of calls served by this code that
    still holds. *)
Theorem unique_emails_are_preserved
    `{Externals} (ops : list Op) (w : World) :
  Forall (fun op => through_this_code op = true) ops ->
  unique_accounts (users w) ->
  unique_accounts (users (fst (serve ops w))).
Proof.
  intros Hops.
  refine (serve_users_invariant
            (fun op => through_this_code op = true)
            (fun us us' => unique_accounts us -> unique_accounts us')
            _ _ _ ops w Hops).
  - auto.
  - auto.
  - intros op w0 Hop Huniq.
    destruct (exec_users_step op w0 Hop)
      as [-> | [u0 [doc [_ [Hu0 [-> [_ [Hmail _]]]]]]]]; [exact Huniq|].
    apply (replace_user_unique doc (users w0) u0 Hu0); [|exact Huniq].
    destruct Hmail as [Hsame | Hfree]; [now left | right].
    now apply lookup_email_absent.
Qed.

Lemma unique_emails_are_preserved_witness :
  unique_accounts
    (users (fst (serve (H := Sample.externals)
                   [OpUpdateProfile Sample.rename_and_change_email;
                    OpUpdateProfile Sample.take_bobs_email;
                    OpChangePassword Sample.change_password]
                   Sample.w0))).
Proof.
  apply (unique_emails_are_preserved (H := Sample.externals)).
  - repeat (constructor; [reflexivity|]). constructor.
  - split; cbn.
    + constructor; [intros [Heq|[]]; discriminate|].
      constructor; [intros []|constructor].
    + constructor; [intros [Heq|[]]; discriminate|].
      constructor; [intros []|constructor].
Defined.

(** ** With a transport *)

Lemma string_append_assoc (a b c : string) :
  (a +++ b) +++ c = a +++ b +++ c.
Proof.
  induction a as [|ch a IH]; [reflexivity|].
  change (String ch ((a +++ b) +++ c) = String ch (a +++ b +++ c)).
  now rewrite IH.
Qed.

Lemma sendEmail_configured to_ subject_ html_ text_ w tr :
  transporter w = Some tr ->
  exists outcome,
    trace (sendEmail to_ subject_ html_ text_) w =
    [EvConsoleLog [VString "Email settings:"];
     EvConsoleLog [VString "To:"; VString to_];
     EvConsoleLog [VString "Subject:"; VString subject_];
     EvConsoleLog [VString "Text:"; VString text_];
     EvConsoleLog [VString "HTML:"; VString html_];
     EvConsoleLog [VString "Mail options:"];
     EvConsoleLog
       [VMail (mkMail (env w "EMAIL_FROM") to_ subject_ text_ html_)];
     EvSendMail (mkMail (env w "EMAIL_FROM") to_ subject_ text_ html_);
     outcome] /\
    match sendMail tr (mkMail (env w "EMAIL_FROM") to_ subject_ text_ html_)
    with
    | inl (Some info) =>
        outcome = EvConsoleLog [VString "Email sent successfully:";
                                to_val (response info)]
    | inl None =>
        outcome = EvConsoleError
                    [VString "Error sending email:";
                     VErr "TypeError: Cannot read properties of undefined"]
    | inr err =>
        outcome = EvConsoleError [VString "Error sending email:"; VErr err]
    end.
Proof.
  intros Htr. unfold trace, sendEmail. js_unfold. cbn. rewrite Htr. cbn.
  destruct (sendMail tr _) as [[i|]|e]; cbn; eexists; split; reflexivity.
Qed.

(** X17: with a transport configured, [sendEmail] hands the transport exactly
    one mail, with the recipient, subject, text and html it was given and
    [EMAIL_FROM] as sender, and never retries; before that it writes the
    subject, text and html to the console; afterwards it logs the
    transport's response, or logs the error when the transport rejects
    the mail or resolves with nothing. *)
Theorem sendEmail_attempts_one_delivery
    (to_ subject_ html_ text_ : string) (w : World) (tr : Transporter) :
  transporter w = Some tr ->
  let m := mkMail (env w "EMAIL_FROM") to_ subject_ text_ html_ in
  let tr_ := trace (sendEmail to_ subject_ html_ text_) w in
  filter is_delivery tr_ = [EvSendMail m] /\
  In (EvConsoleLog [VString "Text:"; VString text_]) tr_ /\
  In (EvConsoleLog [VString "HTML:"; VString html_]) tr_ /\
  (forall info, sendMail tr m = inl (Some info) ->
     exists pre, tr_ = pre ++ [EvSendMail m;
                               EvConsoleLog
                                 [VString "Email sent successfully:";
                                  to_val (response info)]]) /\
  (forall err, sendMail tr m = inr err ->
     exists pre, tr_ = pre ++ [EvSendMail m;
                               EvConsoleError
                                 [VString "Error sending email:";
                                  VErr err]]).
Proof.
  intros Htr. cbv zeta.
  destruct (sendEmail_configured to_ subject_ html_ text_ w tr Htr)
    as [outcome [Htrace Hout]].
  rewrite Htrace.
  assert (Hnd : is_delivery outcome = false).
  { destruct (sendMail tr _) as [[i|]|e]; now subst outcome. }
  split; [cbn; now rewrite Hnd|].
  split; [cbn; tauto|]. split; [cbn; tauto|].
  split.
  - intros info Hinfo. rewrite Hinfo in Hout. subst outcome.
    match goal with
    | |- exists pre, ?a :: ?b :: ?c :: ?d :: ?e :: ?f :: ?g :: _ = _ =>
        exists [a; b; c; d; e; f; g]
    end. reflexivity.
  - intros err Herr. rewrite Herr in Hout. subst outcome.
    match goal with
    | |- exists pre, ?a :: ?b :: ?c :: ?d :: ?e :: ?f :: ?g :: _ = _ =>
        exists [a; b; c; d; e; f; g]
    end. reflexivity.
Qed.

Lemma sendEmail_attempts_one_delivery_witness :
  filter is_delivery
         (trace (sendEmail "alice@example.com" "Hello" "<p>Hi</p>" "Hi")
                Sample.w_accepting) =
  [EvSendMail (mkMail (Some "noreply@example.com") "alice@example.com"
                      "Hello" "Hi" "<p>Hi</p>")].
Proof.
  exact (proj1 (sendEmail_attempts_one_delivery
                  "alice@example.com" "Hello" "<p>Hi</p>" "Hi"
                  Sample.w_accepting Sample.accepting eq_refl)).
Defined.

(** X18: with a transport configured, an [updateProfile] that creates a
    verify token also writes the raw secret to the console: the "Text:"
    line that [sendEmail] logs carries the verify URL, which contains the
    very secret whose hash the token record stores. *)
Theorem configured_transport_logs_the_verify_secret
    `{Externals} (req : Request) (w : World) (tr : Transporter)
    (tok : TokenDoc) :
  transporter w = Some tr ->
  In (EvTokenCreate tok) (trace (updateProfile req) w) ->
  let rawToken := entropy w (draws w) in
  tokenHash tok = Some (hashToken rawToken) /\
  exists line,
    In (EvConsoleLog [VString "Text:"; VString line])
       (trace (updateProfile req) w) /\
    contains line rawToken.
Proof.
  intros Htr Hin. cbv zeta. unfold trace in *.
  destruct (updateProfile_cases req w)
    as [[e [w' [Hrun [Hr _]]]]
       | [[u [_ [_ [_ Hrun]]]] | [u [_ [_ [_ [_ Hrun]]]]]]];
    cbv zeta in Hrun; rewrite Hrun in *; cbn [snd] in *.
  - apply in_singleton_reply in Hin. subst e. discriminate.
  - destruct Hin as [Hin|[Hin|[]]]; discriminate.
  - set (w1 := with_tokens _ _) in *.
    set (url := verifyUrl _ _ _) in *.
    assert (Htr1 : transporter w1 = Some tr) by exact Htr.
    destruct (sendEmail_configured
                (string_of (body_email req)) "Verify your new email"
                (verify_html url) (verify_text url) w1 tr Htr1)
      as [outcome [Htrace Hout]].
    fold (trace (sendEmail (string_of (body_email req))
                   "Verify your new email" (verify_html url)
                   (verify_text url)) w1) in *.
    rewrite Htrace in *. split.
    + destruct Hin as [Hin|Hin]; [now inversion Hin|].
      exfalso. cbn in Hin.
      repeat (destruct Hin as [Hin|Hin]; [try discriminate|]);
        try contradiction.
      destruct (sendMail tr _) as [[i|]|e0];
        rewrite Hout in Hin; discriminate.
    + exists (verify_text url). split; [cbn; tauto|].
      unfold contains, verify_text, url, verifyUrl.
      exists ("Please verify your new email: " +++
              interpolate (env w "BASE_URL") +++
              "/api/auth/verify-email?token="),
             ("&email=" +++ encodeURIComponent (string_of (body_email req))).
      now rewrite !string_append_assoc.
Qed.

Lemma configured_transport_logs_the_verify_secret_witness :
  exists line,
    In (EvConsoleLog [VString "Text:"; VString line])
       (trace (updateProfile (H := Sample.externals) Sample.change_email)
              Sample.w_accepting) /\
    contains line "s3cr3t".
Proof.
  refine (proj2 (configured_transport_logs_the_verify_secret
                   (H := Sample.externals) Sample.change_email
                   Sample.w_accepting Sample.accepting
                   (verify_token (H := Sample.externals)
                      1 "s3cr3t" 1700000000001)
                   eq_refl _)).
  vm_compute. left. reflexivity.
Defined.

Lemma sendEmail_addresses to_ subject_ html_ text_ w m :
  In (EvSendMail m) (trace (sendEmail to_ subject_ html_ text_) w) ->
  to m = to_ /\ subject m = subject_.
Proof.
  unfold trace, sendEmail. js_unfold. cbn.
  destruct (transporter w) as [tr|]; cbn.
  - destruct (sendMail tr _) as [[i|]|e]; cbn; intros Hin;
      repeat (destruct Hin as [Hin|Hin]; [try discriminate|]);
      try contradiction; inversion Hin; now split.
  - intros [Hin|[]]. discriminate.
Qed.

(** X19: a notification is attempted only after the change is stored: in
    a successful [changePassword] the effects are, in this order, the
    save of the caller's account, the bulk revocation of the caller's
    refresh tokens, whatever [sendEmail] does, and the response; in a
    successful [softDeleteProfile] they are the save of the account with
    [isDeleted] set, the bulk revocation of all the caller's tokens,
    whatever [sendEmail] does, and the response.  The document saved is
    the one found for the caller afterwards, and any mail handed to a
    transport is addressed to the email the account had when the call
    began, with the subject of the route. *)
Theorem notification_follows_the_writes
    `{Externals} (req : Request) (w : World) (u : UserDoc) :
  lookup (req_user_id req) (users w) = Some u ->
  (In password_updated (trace (changePassword req) w) ->
   exists doc mails,
     trace (changePassword req) w =
       [EvUserSave doc;
        EvTokenUpdateMany (refresh_sessions_of (req_user_id req)) revoke]
       ++ mails ++ [password_updated] /\
     lookup (req_user_id req) (users (run (changePassword req) w))
       = Some doc /\
     Forall (fun e => is_notification e = true) mails /\
     forall m, In (EvSendMail m) mails ->
               to m = email u /\ subject m = "Your password was changed") /\
  (In account_deactivated (trace (softDeleteProfile req) w) ->
   exists doc mails,
     trace (softDeleteProfile req) w =
       [EvUserSave doc;
        EvTokenUpdateMany (tokens_of (req_user_id req)) revoke]
       ++ mails ++ [account_deactivated] /\
     lookup (req_user_id req) (users (run (softDeleteProfile req) w))
       = Some doc /\
     isDeleted doc = true /\
     Forall (fun e => is_notification e = true) mails /\
     forall m, In (EvSendMail m) mails ->
               to m = email u /\ subject m = "Account deactivated").
Proof.
  intros Hu. pose proof (lookup_id _ _ _ Hu) as Hid.
  unfold trace, run. split; intros Hok.
  - destruct (changePassword_cases req w)
      as [[e [Hrun [_ Hne]]] | [u0 [cp [np [_ [Hu0 [_ [_ [_ [_ Hrun]]]]]]]]]].
    + rewrite Hrun in Hok. cbn in Hok.
      apply in_singleton_reply in Hok. congruence.
    + assert (u0 = u) by congruence. subst u0.
      cbv zeta in Hrun. destruct Hrun as [html_ [text_ Hrun]].
      rewrite Hrun. cbn [fst snd]. rewrite users_saved_then_revoked.
      rewrite <- Hid. do 2 eexists.
      split; [reflexivity|]. split; [|split].
      * change (users (tick w)) with (users w).
        match goal with
        | |- lookup _ (replace_user ?d _) = _ =>
            apply (lookup_replace_same d (users w) u)
        end.
        cbn. rewrite Hid. exact Hu.
      * apply sendEmail_notifies.
      * intros m. apply sendEmail_addresses.
  - destruct (softDeleteProfile_cases req w)
      as [[e [Hrun [_ Hne]]] | [u0 [Hu0 [_ Hrun]]]].
    + rewrite Hrun in Hok. cbn in Hok.
      apply in_singleton_reply in Hok. congruence.
    + assert (u0 = u) by congruence. subst u0.
      cbv zeta in Hrun. destruct Hrun as [html_ [text_ Hrun]].
      rewrite Hrun. cbn [fst snd]. rewrite users_saved_then_revoked.
      rewrite <- Hid. do 2 eexists.
      split; [reflexivity|]. split; [|split; [|split]].
      * match goal with
        | |- lookup _ (replace_user ?d _) = _ =>
            apply (lookup_replace_same d (users w) u)
        end.
        cbn. rewrite Hid. exact Hu.
      * reflexivity.
      * apply sendEmail_notifies.
      * intros m. apply sendEmail_addresses.
Qed.

Lemma notification_follows_the_writes_witness :
  exists doc mails,
    trace (changePassword (H := Sample.externals) Sample.change_password)
          Sample.w_accepting =
      [EvUserSave doc;
       EvTokenUpdateMany (refresh_sessions_of 1) revoke]
      ++ mails ++ [password_updated] /\
    lookup 1 (users (run (changePassword (H := Sample.externals)
                            Sample.change_password) Sample.w_accepting))
      = Some doc /\
    Forall (fun e => is_notification e = true) mails /\
    forall m, In (EvSendMail m) mails ->
              to m = "alice@example.com" /\
              subject m = "Your password was changed".
Proof.
  apply (proj1 (notification_follows_the_writes (H := Sample.externals)
                  Sample.change_password Sample.w_accepting Sample.alice
                  eq_refl)).
  vm_compute. repeat (first [left; reflexivity | right]).
Defined.

(** ** When the routes succeed, and how they refuse *)

Lemma softDeleteProfile_runs req w u :
  lookup (req_user_id req) (users w) = Some u ->
  isDeleted u = false ->
  let doc := deactivated_doc u in
  let w' := saved_then_revoked doc (tokens_of (_id u)) w in
  exists html_ text_,
    softDeleteProfile req w =
    (Normal tt, w',
     [EvUserSave doc; EvTokenUpdateMany (tokens_of (_id u)) revoke] ++
     trace (sendEmail (email u) "Account deactivated" html_ text_) w'
     ++ [account_deactivated]).
Proof.
  intros Hu Hd. unfold lookup in Hu.
  unfold softDeleteProfile. js_unfold. cbn.
  rewrite Hu; cbn. rewrite Hd; cbn. rewrite sendEmail_total; cbn.
  do 2 eexists. reflexivity.
Qed.

Lemma last_of_run {A} (pre mid : list A) (x : A) :
  In x (pre ++ mid ++ [x]).
Proof. apply in_or_app. right. apply in_or_app. right. now left. Qed.

(** X20: a writing route answers with its success response only when its
    checks pass.  [changePassword]: the request passed validation, the
    caller's account exists and is not deactivated, bcrypt accepts the
    current password against the stored hash, and a new password is
    present.  [softDeleteProfile]: the account exists and is not yet
    deactivated.  [updateProfile]: the request passed validation, the
    account exists, and a changed email is not the email of any stored
    account.  For [changePassword] and [softDeleteProfile], which store
    a hash and a flag of their own making, the checks are also enough
    for the success response; for [updateProfile], which stores the
    name and email of the body, only the first direction is stated. *)
Theorem routes_succeed_only_when_their_checks_pass
    `{Externals} (req : Request) (w : World) :
  (In password_updated (trace (changePassword req) w) <->
   validation req = [] /\
   exists u cp np,
     lookup (req_user_id req) (users w) = Some u /\
     isDeleted u = false /\
     body_currentPassword req = Some cp /\
     bcrypt_compare cp (password u) = true /\
     body_newPassword req = Some np) /\
  (In account_deactivated (trace (softDeleteProfile req) w) <->
   exists u, lookup (req_user_id req) (users w) = Some u /\
             isDeleted u = false) /\
  (In profile_updated (trace (updateProfile req) w) ->
   validation req = [] /\
   exists u,
     lookup (req_user_id req) (users w) = Some u /\
     (changed (body_email req) (email u) = true ->
      lookup_email (string_of (body_email req)) (users w) = None)).
Proof.
  unfold trace. split; [|split]; [split|split|].
  - intros Hok.
    destruct (changePassword_cases req w)
      as [[e [Hrun [_ Hne]]]
         | [u [cp [np [Hv [Hu [Hd [Hcp [Hm [Hnp _]]]]]]]]]].
    + rewrite Hrun in Hok. cbn in Hok.
      apply in_singleton_reply in Hok. congruence.
    + split; [exact Hv|]. exists u, cp, np. now repeat split.
  - intros [Hv [u [cp [np [Hu [Hd [Hcp [Hm Hnp]]]]]]]].
    destruct (changePassword_runs req w u cp np Hv Hu Hd Hcp Hm Hnp)
      as [html_ [text_ Hrun]].
    rewrite Hrun. cbn [snd]. apply last_of_run.
  - intros Hok.
    destruct (softDeleteProfile_cases req w)
      as [[e [Hrun [_ Hne]]] | [u [Hu [Hd _]]]].
    + rewrite Hrun in Hok. cbn in Hok.
      apply in_singleton_reply in Hok. congruence.
    + now exists u.
  - intros [u [Hu Hd]].
    destruct (softDeleteProfile_runs req w u Hu Hd) as [html_ [text_ Hrun]].
    rewrite Hrun. cbn [snd]. apply last_of_run.
  - intros Hok.
    destruct (updateProfile_cases req w)
      as [[e [w' [Hrun [_ [Hne _]]]]]
         | [[u [Hv [Hu [He _]]]] | [u [Hv [Hu [He [Ho _]]]]]]].
    + rewrite Hrun in Hok. cbn in Hok.
      apply in_singleton_reply in Hok. congruence.
    + split; [exact Hv|]. exists u. split; [exact Hu|]. congruence.
    + split; [exact Hv|]. exists u. split; [exact Hu|]. now intros _.
Qed.

Ltac known := first [reflexivity | assumption].

Section Refusals.
Context `{Externals}.

(** The reply of [changePassword] as a table of its checks, in the order
    the code makes them. *)
Lemma changePassword_refuses req w :
  (validation req <> [] /\
   trace (changePassword req) w = [EvRespond 400 (JErrors (validation req))])
  \/
  (validation req = [] /\
   lookup (req_user_id req) (users w) = None /\
   trace (changePassword req) w =
   [EvRespond 404 (JMessage "User not found")])
  \/
  (validation req = [] /\
   exists u,
     lookup (req_user_id req) (users w) = Some u /\
     ((isDeleted u = true /\
       trace (changePassword req) w =
       [EvRespond 403 (JMessage "Account deactivated")])
      \/
      (isDeleted u = false /\
       exists cp,
         body_currentPassword req = Some cp /\
         bcrypt_compare cp (password u) = false /\
         trace (changePassword req) w =
         [EvRespond 400 (JMessage "Current password is incorrect")])
      \/
      (isDeleted u = false /\
       (body_currentPassword req = None \/
        exists cp, body_currentPassword req = Some cp /\
                   bcrypt_compare cp (password u) = true) /\
       forall e, In e (trace (changePassword req) w) ->
                 is_reply e = true ->
                 e = password_updated \/ exists err, e = EvNext err))).
Proof.
  destruct (validation req) as [|e0 l] eqn:Hv.
  2:{ left. split; [discriminate|]. unfold trace.
      now rewrite (proj2 (validation_gate req w e0 l Hv)). }
  right. destruct (lookup (req_user_id req) (users w)) as [u|] eqn:Hu.
  2:{ left. split; [known|]. split; [known|].
      unfold trace, changePassword. js_unfold. cbn. rewrite Hv. cbn.
      unfold lookup in Hu. now rewrite Hu. }
  right. split; [known|]. exists u. split; [known|].
  destruct (isDeleted u) eqn:Hd.
  { left. split; [known|]. unfold trace.
    now rewrite (changePassword_deactivated req w u Hv Hu Hd). }
  right. destruct (body_currentPassword req) as [cp|] eqn:Hcp.
  - destruct (bcrypt_compare cp (password u)) eqn:Hm.
    + right. split; [known|]. split; [right; now exists cp|].
      intros e Hin Hr.
      destruct (changePassword_cases req w)
        as [[e1 [Hrun _]] | [u1 [cp1 [np1 [_ [_ [_ [_ [_ [_ Hrun]]]]]]]]]].
      * unfold trace, changePassword in *. revert Hrun Hin. js_unfold. cbn.
        rewrite Hv. cbn. unfold lookup in Hu. rewrite Hu. cbn.
        rewrite Hd. cbn. rewrite Hcp. cbn. rewrite Hm. cbn.
        destruct (body_newPassword req); cbn.
        -- rewrite sendEmail_total. cbn. discriminate.
        -- intros _ [<-|[]]. right. now eexists.
      * left. cbv zeta in Hrun. destruct Hrun as [html_ [text_ Hrun]].
        unfold trace in Hin. rewrite Hrun in Hin. cbn [snd] in Hin.
        apply (reply_in_run _ _ _ _ Hin Hr).
        -- repeat (constructor; [reflexivity|]). constructor.
        -- apply sendEmail_notifies.
    + left. split; [known|]. exists cp.
      split; [known|]. split; [known|]. unfold trace.
      now rewrite (changePassword_mismatch req w u cp Hv Hu Hd Hcp Hm).
  - right. split; [known|]. split; [now left|].
    intros e Hin Hr. right.
    unfold trace, changePassword in Hin. revert Hin. js_unfold. cbn.
    rewrite Hv. cbn. unfold lookup in Hu. rewrite Hu. cbn.
    rewrite Hd. cbn. rewrite Hcp. cbn.
    intros [<-|[]]. now eexists.
Qed.

End Refusals.

(** X21: the refusals of [changePassword] come in the order of its checks.  A
    request that passed validation is answered 404 "User not found"
    exactly when no account is stored under the caller's id; 403 "Account
    deactivated" exactly when the stored account is deactivated, whatever
    the passwords; and 400 "Current password is incorrect" exactly when
    the account is active and bcrypt rejects the current password. *)
Theorem changePassword_refusals_follow_the_checks
    `{Externals} (req : Request) (w : World) :
  validation req = [] ->
  (In (EvRespond 404 (JMessage "User not found"))
      (trace (changePassword req) w) <->
   lookup (req_user_id req) (users w) = None) /\
  (In (EvRespond 403 (JMessage "Account deactivated"))
      (trace (changePassword req) w) <->
   exists u, lookup (req_user_id req) (users w) = Some u /\
             isDeleted u = true) /\
  (In (EvRespond 400 (JMessage "Current password is incorrect"))
      (trace (changePassword req) w) <->
   exists u cp,
     lookup (req_user_id req) (users w) = Some u /\
     isDeleted u = false /\
     body_currentPassword req = Some cp /\
     bcrypt_compare cp (password u) = false).
Proof.
  intros Hv.
  destruct (changePassword_refuses req w)
    as [[Hbad _] | [[_ [Hu Htr]] | [_ [u [Hu Hcase]]]]];
    [congruence| |].
  - rewrite Htr, Hu. split; [|split]; split.
    + reflexivity.
    + intros _. now left.
    + intros [Heq|[]]. discriminate.
    + intros [u [Hu' _]]. discriminate.
    + intros [Heq|[]]. discriminate.
    + intros [u [cp [Hu' _]]]. discriminate.
  - rewrite Hu.
    destruct Hcase as [[Hd Htr] | [[Hd [cp [Hcp [Hm Htr]]]]
                                  | [Hd [Hpw Hreplies]]]].
    + rewrite Htr. split; [|split]; split.
      * intros [Heq|[]]. discriminate.
      * discriminate.
      * intros _. now exists u.
      * intros _. now left.
      * intros [Heq|[]]. discriminate.
      * intros [u' [cp [Hu' [Hd' _]]]]. congruence.
    + rewrite Htr. split; [|split]; split.
      * intros [Heq|[]]. discriminate.
      * discriminate.
      * intros [Heq|[]]. discriminate.
      * intros [u' [Hu' Hd']]. congruence.
      * intros _. now exists u, cp.
      * intros _. now left.
    + split; [|split]; split.
      * intros Hin. destruct (Hreplies _ Hin eq_refl) as [Heq|[err Heq]];
          discriminate.
      * discriminate.
      * intros Hin. destruct (Hreplies _ Hin eq_refl) as [Heq|[err Heq]];
          discriminate.
      * intros [u' [Hu' Hd']]. congruence.
      * intros Hin. destruct (Hreplies _ Hin eq_refl) as [Heq|[err Heq]];
          discriminate.
      * intros [u' [cp [Hu' [_ [Hcp Hm]]]]].
        assert (u' = u) by congruence. subst u'.
        destruct Hpw as [Hnone | [cp' [Hcp' Hm']]]; congruence.
Qed.

Lemma changePassword_refusals_follow_the_checks_witness :
  In (EvRespond 400 (JMessage "Current password is incorrect"))
     (trace (changePassword (H := Sample.externals) Sample.wrong_password)
            Sample.w0).
Proof.
  apply (proj2 (proj2 (changePassword_refusals_follow_the_checks
                         (H := Sample.externals) Sample.wrong_password
                         Sample.w0 eq_refl))).
  exists Sample.alice, "WrongPass1!". repeat split.
Defined.
